(** * Bovine-Breed-App: the storage, classifier and save workflow of [breed.py]

    A shallow embedding of the functions of [breed.py] that touch the
    SQLite store ([add_user], [login_user], [save_prediction],
    [get_records], [update_profile]), of the classifier wrapper [predict]
    and of the Streamlit page [page_upload], followed by the properties
    the design document states about them.

    Conventions.
    - A Python [str] is a Rocq [string] holding its UTF-8 bytes, so that
      [p.encode()] is the identity on the underlying bytes.
    - The process-wide connection [conn]/[cur] is the explicit state [db];
      every function that executes a statement takes the store and returns
      the store after [conn.commit()].
    - A raised Python exception is the [Raise] outcome of [result].
    - The wall clock read by [datetime.now()] is an explicit argument.
    - Failures of the engine that do not depend on the statement (I/O
      errors, a full disk, an exhausted 64-bit rowid space) are outside the
      model. *)

From Stdlib Require Import ZArith Lia SpecFloat Ascii String.
From stdpp Require Import base option list sorting strings gmap.

Local Open Scope Z_scope.

(** ** [hashlib.sha256(data).hexdigest()] *)

Module Sha256.

(** 32-bit words are integers in [0, 2^32); additions wrap around. *)
Definition wrap (x : Z) : Z := x mod 2 ^ 32.
Definition add32 (x y : Z) : Z := wrap (x + y).
Definition rotr (n x : Z) : Z :=
  Z.lor (Z.shiftr x n) (wrap (Z.shiftl x (32 - n))).
Definition not32 (x : Z) : Z := Z.lxor x 0xffffffff.

Definition ch (x y z : Z) : Z := Z.lxor (Z.land x y) (Z.land (not32 x) z).
Definition maj (x y z : Z) : Z :=
  Z.lxor (Z.lxor (Z.land x y) (Z.land x z)) (Z.land y z).
Definition bsig0 (x : Z) : Z :=
  Z.lxor (Z.lxor (rotr 2 x) (rotr 13 x)) (rotr 22 x).
Definition bsig1 (x : Z) : Z :=
  Z.lxor (Z.lxor (rotr 6 x) (rotr 11 x)) (rotr 25 x).
Definition ssig0 (x : Z) : Z :=
  Z.lxor (Z.lxor (rotr 7 x) (rotr 18 x)) (Z.shiftr x 3).
Definition ssig1 (x : Z) : Z :=
  Z.lxor (Z.lxor (rotr 17 x) (rotr 19 x)) (Z.shiftr x 10).

(** The constants are defined as FIPS 180-4 defines them: the first 32
    bits of the fractional parts of the cube roots of the first 64 primes,
    and of the square roots of the first 8 primes. *)
Definition is_prime (n : Z) : bool :=
  forallb (fun d => negb (n mod d =? 0)) (seqZ 2 (n - 2)).
Definition primes : list Z := List.filter is_prime (seqZ 2 310).

(** The integer cube root of [n], one bit at a time from bit [b - 1] down. *)
Fixpoint cbrt_bits (b : nat) (n r : Z) : Z :=
  match b with
  | O => r
  | S k =>
      let c := r + 2 ^ Z.of_nat k in
      cbrt_bits k n (if c * c * c <=? n then c else r)
  end.
Definition cbrt (n : Z) : Z := cbrt_bits 40 n 0.

Definition round_constants : list Z :=
  Eval vm_compute in (fun q => wrap (cbrt (q * 2 ^ 96))) <$> primes.

Definition initial_hash : list Z :=
  Eval vm_compute in (fun q => wrap (Z.sqrt (q * 2 ^ 64))) <$> take 8 primes.

(** Big-endian encoding of [x] on [n] bytes. *)
Fixpoint be_bytes (n : nat) (x : Z) : list Z :=
  match n with
  | O => []
  | S k => Z.shiftr x (8 * Z.of_nat k) mod 256 :: be_bytes k x
  end.

Definition be_word (bs : list Z) : Z :=
  foldl (fun acc b => acc * 256 + b) 0 bs.

(** The message followed by the bit 1, zeros up to 56 modulo 64 bytes,
    and the bit length on 64 bits. *)
Definition pad (msg : list Z) : list Z :=
  let len := Z.of_nat (length msg) in
  let zeros := Z.to_nat ((55 - len) mod 64) in
  msg ++ 0x80 :: replicate zeros 0 ++ be_bytes 8 (8 * len).

Fixpoint chunks (fuel size : nat) (l : list Z) : list (list Z) :=
  match fuel, l with
  | S f, _ :: _ => take size l :: chunks f size (drop size l)
  | _, _ => []
  end.

(** [schedule n ws] extends the message schedule by [n] words; [ws] holds
    the words computed so far, the latest first. *)
Fixpoint schedule (n : nat) (ws : list Z) : list Z :=
  match n with
  | O => ws
  | S k =>
      let w := add32 (add32 (ssig1 (nth 1 ws 0)) (nth 6 ws 0))
                     (add32 (ssig0 (nth 14 ws 0)) (nth 15 ws 0)) in
      schedule k (w :: ws)
  end.

Definition step (v : list Z) (kw : Z * Z) : list Z :=
  match v with
  | [a; b; c; d; e; f; g; h] =>
      let t1 := add32 (add32 (add32 h (bsig1 e)) (ch e f g))
                      (add32 (fst kw) (snd kw)) in
      let t2 := add32 (bsig0 a) (maj a b c) in
      [add32 t1 t2; a; b; c; add32 d t1; e; f; g]
  | _ => v
  end.

Definition compress (h : list Z) (block : list Z) : list Z :=
  let w16 := be_word <$> chunks 16 4 block in
  let w64 := rev (schedule 48 (rev w16)) in
  zip_with add32 h (foldl step h (zip round_constants w64)).

Definition digest (msg : list Z) : list Z :=
  let padded := pad msg in
  let h := foldl compress initial_hash (chunks (length padded) 64 padded) in
  h ≫= be_bytes 4.

Definition hex_digit (n : Z) : ascii :=
  if n <? 10 then ascii_of_N (Z.to_N (48 + n))
  else ascii_of_N (Z.to_N (87 + n)).

Definition hex (bs : list Z) : string :=
  foldr (fun b s =>
           String (hex_digit (b / 16)) (String (hex_digit (b mod 16)) s))
        EmptyString bs.

Definition bytes_of_string (s : string) : list Z :=
  (fun c => Z.of_N (N_of_ascii c)) <$> String.list_ascii_of_string s.

Definition hexdigest (s : string) : string := hex (digest (bytes_of_string s)).

End Sha256.

(** ** Python values and outcomes *)

(** Exceptions the modelled statements can raise. *)
Inductive exn :=
  | IntegrityError (msg : string)   (* sqlite3.IntegrityError *)
  | ValueError (msg : string).      (* numpy, on an empty array *)

Inductive result (A : Type) :=
  | Ok (a : A)
  | Raise (e : exn).
Arguments Ok {A} a.
Arguments Raise {A} e.

(** A Python [float] is an IEEE 754 binary64 number, a numpy [float32] a
    binary32 number; both are [spec_float] values, valid for their format. *)
Abbreviation float64 := spec_float.
Abbreviation float32 := spec_float.

(** The two kinds of number [predict] returns as a confidence. *)
Inductive pynum :=
  | PyInt (z : Z)
  | PyFloat (f : float64).

(** ** The SQLite store *)

(** A row of [users]. [name], [phone] and [address] are NULL until
    [update_profile] sets them. *)
Record user := {
  u_id : Z;
  u_email : string;
  u_password : string;
  u_name : option string;
  u_phone : option string;
  u_address : option string
}.

(** A row of [predictions]. *)
Record prediction := {
  p_id : Z;
  p_user_id : Z;
  p_breed : string;
  p_height : float64;
  p_weight : float64;
  p_gender : string;
  p_image_path : string;
  p_age : float64;
  p_created_at : string
}.

(** The seven columns [get_records] selects. *)
Record record := {
  r_breed : string;
  r_height : float64;
  r_weight : float64;
  r_age : float64;
  r_gender : string;
  r_image_path : string;
  r_created_at : string
}.

(** The content of [users.db]: the two tables, rows in insertion order, and
    for each the [sqlite_sequence] counter that AUTOINCREMENT maintains. *)
Record db := {
  users : list user;
  users_seq : Z;
  predictions : list prediction;
  predictions_seq : Z
}.

(** The store right after the two [CREATE TABLE IF NOT EXISTS] statements
    ran against a fresh file. *)
Definition empty_db : db :=
  {| users := []; users_seq := 0; predictions := []; predictions_seq := 0 |}.

(** AUTOINCREMENT: one more than the largest rowid the table ever held,
    which is the larger of the sequence counter and the largest rowid
    present. *)
Definition max_rowid (ids : list Z) : Z := foldr Z.max 0 ids.
Definition next_rowid (seq : Z) (ids : list Z) : Z :=
  Z.max seq (max_rowid ids) + 1.

(** [PRAGMA foreign_keys] of the connection. SQLite leaves it off unless a
    connection turns it on, and [breed.py] never does. *)
Definition foreign_keys : bool := false.

(** [INSERT INTO users(email,password) VALUES(?,?)] under the UNIQUE
    constraint on [email]. *)
Definition insert_user (d : db) (email password : string) : result unit * db :=
  if existsb (fun u => String.eqb (u_email u) email) (users d)
  then (Raise (IntegrityError "UNIQUE constraint failed: users.email"), d)
  else
    let i := next_rowid (users_seq d) (u_id <$> users d) in
    (Ok (),
     {| users := users d ++
                 [ {| u_id := i; u_email := email; u_password := password;
                      u_name := None; u_phone := None; u_address := None |} ];
        users_seq := i;
        predictions := predictions d;
        predictions_seq := predictions_seq d |}).

(** [INSERT INTO predictions(...) VALUES(...)]; the FOREIGN KEY clause of
    the schema is checked only on a connection with [fk] on. *)
Definition insert_prediction (fk : bool) (d : db)
    (uid : Z) (breed : string) (h w age : float64) (g path now : string)
  : result unit * db :=
  if fk && negb (existsb (fun u => u_id u =? uid) (users d))
  then (Raise (IntegrityError "FOREIGN KEY constraint failed"), d)
  else
    let i := next_rowid (predictions_seq d) (p_id <$> predictions d) in
    (Ok (),
     {| users := users d;
        users_seq := users_seq d;
        predictions := predictions d ++
                 [ {| p_id := i; p_user_id := uid; p_breed := breed;
                      p_height := h; p_weight := w; p_gender := g;
                      p_image_path := path; p_age := age;
                      p_created_at := now |} ];
        predictions_seq := i |}).

(** [ORDER BY id DESC], as an insertion sort on the selected rows. *)
Fixpoint insert_desc (r : prediction) (l : list prediction) : list prediction :=
  match l with
  | [] => [r]
  | x :: l' => if p_id x <? p_id r then r :: l else x :: insert_desc r l'
  end.
Definition order_by_id_desc (l : list prediction) : list prediction :=
  foldr insert_desc [] l.

Definition select_record (p : prediction) : record :=
  {| r_breed := p_breed p; r_height := p_height p; r_weight := p_weight p;
     r_age := p_age p; r_gender := p_gender p;
     r_image_path := p_image_path p; r_created_at := p_created_at p |}.

(** ** Utils *)

Definition hash_pw (p : string) : string := Sha256.hexdigest p.

Definition add_user (d : db) (email pw : string) : result unit * db :=
  insert_user d email (hash_pw pw).

(** [SELECT * ... WHERE email=? AND password=?] then [cur.fetchone()]:
    the first selected row as a dict, or [None]. *)
Definition login_user (d : db) (email pw : string) : option user :=
  List.find (fun u => String.eqb (u_email u) email
                      && String.eqb (u_password u) (hash_pw pw))
            (users d).

Definition save_prediction (d : db)
    (uid : Z) (breed : string) (h w age : float64) (g path now : string)
  : result unit * db :=
  insert_prediction foreign_keys d uid breed h w age g path now.

Definition get_records (d : db) (uid : Z) : list record :=
  select_record <$>
    order_by_id_desc (List.filter (fun p => p_user_id p =? uid) (predictions d)).

(** [UPDATE users SET name=?,phone=?,address=? WHERE id=?]. *)
Definition set_profile (uid : Z) (n p a : string) (u : user) : user :=
  if u_id u =? uid
  then {| u_id := u_id u; u_email := u_email u; u_password := u_password u;
          u_name := Some n; u_phone := Some p; u_address := Some a |}
  else u.

Definition update_profile (d : db) (uid : Z) (n p a : string) : result unit * db :=
  (Ok (),
   {| users := set_profile uid n p a <$> users d;
      users_seq := users_seq d;
      predictions := predictions d;
      predictions_seq := predictions_seq d |}).

(** ** Model loading and prediction *)

(** The Python int 100 as a float32 (numpy keeps the type of the float32
    operand when the other one is a Python int), and [float(x)] for a
    float32 [x]. *)
Definition float32_of_int (z : Z) : float32 := binary_normalize 24 128 z 0 false.
Definition hundred : float32 := Eval vm_compute in float32_of_int 100.
Definition float_of_float32 (x : float32) : float64 :=
  match x with
  | S754_finite s m e => binary_round 53 1024 s m e
  | _ => x
  end.

(** [float(z)] for a Python int [z] in the range of binary64 (beyond it
    Python raises OverflowError), and [float(x)] for a number [x], the
    conversion that formatting a confidence with [.1f] applies. *)
Definition float_of_int (z : Z) : float64 := binary_normalize 53 1024 z 0 false.
Definition py_float (x : pynum) : float64 :=
  match x with
  | PyInt z => float_of_int z
  | PyFloat f => f
  end.

Definition is_nan (x : spec_float) : bool :=
  match x with S754_nan => true | _ => false end.

(** [np.argmax] on a one-dimensional float array: the running maximum [mp]
    at index [mi] is replaced by a later element [x] unless [x <= mp]; a NaN
    is maximal and stops the scan. *)
Fixpoint argmax_scan (mp : float32) (mi i : nat) (l : list float32) : nat :=
  match l with
  | [] => mi
  | x :: l' =>
      if is_nan mp then mi
      else if SFleb x mp then argmax_scan mp mi (S i) l'
           else argmax_scan x i (S i) l'
  end.

Definition np_argmax (p : list float32) : result nat :=
  match p with
  | [] => Raise (ValueError "attempt to get argmax of an empty sequence")
  | x :: l => Ok (argmax_scan x 0 1 l)
  end.

(** [{v: k for k, v in json.load(f).items()}]: a later item wins. *)
Definition invert_classes (items : list (string * Z)) : gmap Z string :=
  foldl (fun m kv => <[kv.2 := kv.1]> m) ∅ items.

Section App.

(** A decoded PIL image. *)
Context {Image : Type}.

(** The loaded network: [model.predict] applied to the one-image batch
    made of the image resized to 224x224 and scaled by 1/255, then row 0
    of the result. *)
Definition keras_model : Type := Image → list float32.

(** Lines 74-90. Each artifact is absent ([None]), unreadable ([Raise])
    or loaded; anything but two loaded artifacts leaves [model] at [None]
    and [idx_to_class] empty. *)
Definition load_classifier
    (model_file : option (result keras_model))
    (class_file : option (result (list (string * Z))))
  : option keras_model * gmap Z string :=
  match model_file, class_file with
  | Some (Ok m), Some (Ok items) => (Some m, invert_classes items)
  | _, _ => (None, ∅)
  end.

Definition predict (model : option keras_model) (idx_to_class : gmap Z string)
    (img : Image) : result (string * pynum) :=
  match model with
  | None => Ok ("Unknown", PyInt 0)
  | Some m =>
      let p0 := m img in
      match np_argmax p0 with
      | Raise e => Raise e
      | Ok idx =>
          Ok (default "Unknown" (idx_to_class !! Z.of_nat idx),
              PyFloat (float_of_float32
                         (SFmul 24 128 (nth idx p0 S754_nan) hundred)))
      end
  end.

(** ** Session and pages *)

(** What a script run shows. *)
Inductive ui_event :=
  | Header (s : string)
  | ShowImage (img : Image)
  | ShowPrediction (br : string) (conf : pynum)
  | Success (s : string)
  | Warning (s : string)
  | Error (s : string)
  | Rerun.

(** The process state a page reads and writes: the store, the files
    under [temp/], and [st.session_state]. *)
Record world := {
  w_db : db;
  w_files : gmap string Image;
  w_user : option user;
  w_page : string
}.

Definition with_db (w : world) (d : db) : world :=
  {| w_db := d; w_files := w_files w; w_user := w_user w; w_page := w_page w |}.

(** The outcome of one script run of a page. *)
Record run := {
  shown : list ui_event;
  after : world;
  uncaught : option exn
}.

(** The values the widgets of [page_upload] return in one run. *)
Record upload_widgets := {
  up : option (string * Image);     (* st.file_uploader: name and content *)
  cam : option Image;               (* st.camera_input *)
  predict_clicked : bool;           (* st.button("Predict Breed") *)
  breed_edit : option string;       (* st.text_input("Edit Breed", br) *)
  height_in : float64;
  weight_in : float64;
  age_in : float64;
  gender_in : string;
  save_clicked : bool               (* st.form_submit_button("Save Result") *)
}.

(** [up if up else cam], with the file name the image is stored under. *)
Definition chosen_image (ws : upload_widgets) : option (string * Image) :=
  match up ws, cam ws with
  | Some (name, img), _ => Some (name, img)
  | None, Some img => Some ("captured.jpg", img)
  | None, None => None
  end.

Definition page_upload (model : option keras_model) (idx_to_class : gmap Z string)
    (ws : upload_widgets) (now : string) (w : world) : run :=
  let hd := [Header "📸 Upload / Capture Image"] in
  match chosen_image ws with
  | None => {| shown := hd; after := w; uncaught := None |}
  | Some (name, img) =>
      let path := "temp/" +:+ name in
      let w1 := {| w_db := w_db w; w_files := <[path := img]> (w_files w);
                   w_user := w_user w; w_page := w_page w |} in
      let ev1 := hd ++ [ShowImage img] in
      if negb (predict_clicked ws)
      then {| shown := ev1; after := w1; uncaught := None |}
      else
        match predict model idx_to_class img with
        | Raise e => {| shown := ev1; after := w1; uncaught := Some e |}
        | Ok (br, conf) =>
            let ev2 := ev1 ++ [ShowPrediction br conf] in
            let breed := default br (breed_edit ws) in
            if negb (save_clicked ws)
            then {| shown := ev2; after := w1; uncaught := None |}
            else
              match w_user w1 with
              | Some u =>
                  match save_prediction (w_db w1) (u_id u) breed
                          (height_in ws) (weight_in ws) (age_in ws)
                          (gender_in ws) path now with
                  | (Ok _, d) =>
                      {| shown := ev2 ++ [Success "Saved ✅"];
                         after := with_db w1 d; uncaught := None |}
                  | (Raise e, d) =>
                      {| shown := ev2; after := with_db w1 d;
                         uncaught := Some e |}
                  end
              | None =>
                  {| shown := ev2 ++ [Warning "Login first to save"];
                     after := w1; uncaught := None |}
              end
        end
  end.

Inductive auth_menu := Login | SignUp | Skip.

Definition exn_message (e : exn) : string :=
  match e with IntegrityError m | ValueError m => m end.

(** [clicked] is the value of the button of the chosen menu entry. *)
Definition page_auth (opt : auth_menu) (e p : string) (clicked : bool)
    (w : world) : run :=
  let hd := [Header "🔑 Login / Signup"] in
  match opt with
  | SignUp =>
      if negb clicked then {| shown := hd; after := w; uncaught := None |}
      else
        match add_user (w_db w) e p with
        | (Ok _, d) =>
            {| shown := hd ++ [Success "✅ User created"];
               after := with_db w d; uncaught := None |}
        | (Raise ex, d) =>
            {| shown := hd ++ [Error ("⚠ Email exists or error: " +:+ exn_message ex)];
               after := with_db w d; uncaught := None |}
        end
  | Login =>
      if negb clicked then {| shown := hd; after := w; uncaught := None |}
      else
        match login_user (w_db w) e p with
        | Some u =>
            {| shown := hd ++ [Rerun];
               after := {| w_db := w_db w; w_files := w_files w;
                           w_user := Some u; w_page := "upload" |};
               uncaught := None |}
        | None =>
            {| shown := hd ++ [Error "Invalid credentials"];
               after := w; uncaught := None |}
        end
  | Skip =>
      {| shown := hd ++ [Rerun];
         after := {| w_db := w_db w; w_files := w_files w;
                     w_user := w_user w; w_page := "upload" |};
         uncaught := None |}
  end.

End App.

(** ** The profile and records pages, the session and the router *)

Section Pages.

Context {Image : Type}.

(** Lines 134-135: a new session has no user and starts on the login page. *)
Definition new_session (d : db) (files : gmap string Image) : @world Image :=
  {| w_db := d; w_files := files; w_user := None; w_page := "auth" |}.

(** The values the widgets of [page_profile] return in one run; a text
    widget left alone returns its default. *)
Record profile_widgets := {
  name_in : option string;          (* st.text_input("Name", ...) *)
  phone_in : option string;         (* st.text_input("Phone", ...) *)
  address_in : option string;       (* st.text_area("Address", ...) *)
  save_profile_clicked : bool;      (* st.button("Save Profile") *)
  logout_clicked : bool             (* st.button("Logout") *)
}.

Definition page_profile (ws : profile_widgets) (w : @world Image) : @run Image :=
  let hd := [Header "👤 Profile"] in
  match w_user w with
  | None =>
      {| shown := hd ++ [Warning "Please login"]; after := w; uncaught := None |}
  | Some u =>
      let n := default (default "" (u_name u)) (name_in ws) in
      let ph := default (default "" (u_phone u)) (phone_in ws) in
      let ad := default (default "" (u_address u)) (address_in ws) in
      let saved :=
        if save_profile_clicked ws
        then
          match update_profile (w_db w) (u_id u) n ph ad with
          | (Ok _, d) =>
              {| shown := hd ++ [Success "Profile Updated"];
                 after := with_db w d; uncaught := None |}
          | (Raise e, d) =>
              {| shown := hd; after := with_db w d; uncaught := Some e |}
          end
        else {| shown := hd; after := w; uncaught := None |} in
      match uncaught saved with
      | Some _ => saved
      | None =>
          if logout_clicked ws
          then {| shown := shown saved ++ [Rerun];
                  after := {| w_db := w_db (after saved);
                              w_files := w_files (after saved);
                              w_user := None; w_page := "auth" |};
                  uncaught := None |}
          else saved
      end
  end.

(** What a run of the whole script shows: the events of the three pages
    above, and those only the records page and the navigation bar produce. *)
Inductive app_event :=
  | Page (e : @ui_event Image)
  | Info (s : string)
  | RecordLine (i : nat) (r : record)   (* the markdown line of record [i] *)
  | ShowFile (path : string)            (* st.image(path, width=150) *)
  | Divider.                            (* st.markdown("---") *)

(** The loop over [enumerate(rec, i)]: a line per record, then its image
    when the path is not empty and the file exists. *)
Fixpoint record_lines (files : gmap string Image) (i : nat) (rec : list record)
  : list app_event :=
  match rec with
  | [] => []
  | r :: rec' =>
      RecordLine i r
      :: (if negb (String.eqb (r_image_path r) "")
             && bool_decide (is_Some (files !! r_image_path r))
          then [ShowFile (r_image_path r)] else [])
      ++ record_lines files (S i) rec'
  end.

Definition page_records (w : @world Image) : list app_event :=
  Page (Header "📂 Records") ::
  match w_user w with
  | Some u =>
      match get_records (w_db w) (u_id u) with
      | [] => [Info "No records yet"]
      | rec => record_lines (w_files w) 1 rec
      end
  | None => [Page (Warning "Login to view records")]
  end.

(** The outcome of one run of the script from the router on. *)
Record app_run := {
  a_shown : list app_event;
  a_after : @world Image;
  a_uncaught : option exn
}.

Definition of_page (r : @run Image) : app_run :=
  {| a_shown := Page <$> shown r; a_after := after r; a_uncaught := uncaught r |}.

(** Everything the widgets return in one run of the script. *)
Record script_inputs := {
  auth_opt : auth_menu;
  auth_email : string;
  auth_password : string;
  auth_clicked : bool;
  upload_in : @upload_widgets Image;
  profile_in : profile_widgets;
  home_clicked : bool;              (* c1.button("Home") *)
  profile_clicked : bool;           (* c2.button("Profile") *)
  records_clicked : bool            (* c3.button("Records") *)
}.

(** Lines 226-230: dispatch on [st.session_state.page]; every name other
    than the first three shows the records. *)
Definition route (model : option (@keras_model Image)) (idx_to_class : gmap Z string)
    (inp : script_inputs) (now : string) (w : @world Image) : app_run :=
  if String.eqb (w_page w) "auth"
  then of_page (page_auth (auth_opt inp) (auth_email inp) (auth_password inp)
                          (auth_clicked inp) w)
  else if String.eqb (w_page w) "upload"
  then of_page (page_upload model idx_to_class (upload_in inp) now w)
  else if String.eqb (w_page w) "profile"
  then of_page (page_profile (profile_in inp) w)
  else {| a_shown := page_records w; a_after := w; a_uncaught := None |}.

(** [st.experimental_rerun()] and an uncaught exception both end the run. *)
Definition is_rerun (e : app_event) : bool :=
  match e with Page Rerun => true | _ => false end.
Definition stopped (r : app_run) : bool :=
  match a_uncaught r with
  | Some _ => true
  | None => existsb is_rerun (a_shown r)
  end.

Definition goto (page : string) (r : app_run) : app_run :=
  {| a_shown := a_shown r ++ [Divider; Page Rerun];
     a_after := {| w_db := w_db (a_after r); w_files := w_files (a_after r);
                   w_user := w_user (a_after r); w_page := page |};
     a_uncaught := None |}.

(** Lines 232-235: the navigation bar under the page, unless the page ended
    the run; the first pressed button ends it. *)
Definition navigate (inp : script_inputs) (r : app_run) : app_run :=
  if stopped r then r
  else if home_clicked inp then goto "upload" r
  else if profile_clicked inp then goto "profile" r
  else if records_clicked inp then goto "records" r
  else {| a_shown := a_shown r ++ [Divider]; a_after := a_after r;
          a_uncaught := None |}.

Definition main (model : option (@keras_model Image)) (idx_to_class : gmap Z string)
    (inp : script_inputs) (now : string) (w : @world Image) : app_run :=
  navigate inp (route model idx_to_class inp now w).

(** A session: the script run once per interaction, each with its widget
    values and its clock. *)
Definition session (model : option (@keras_model Image)) (idx_to_class : gmap Z string)
    (runs : list (script_inputs * string)) (w : @world Image) : @world Image :=
  foldl (λ w' r, a_after (main model idx_to_class r.1 r.2 w')) w runs.

End Pages.

(** ** Predicates the properties are stated with *)

(** The constraints of the schema: PRIMARY KEY on both tables and UNIQUE on
    [users.email]. *)
Definition wf_db (d : db) : Prop :=
  NoDup (u_id <$> users d) ∧ NoDup (u_email <$> users d)
  ∧ NoDup (p_id <$> predictions d).


(** The float32 1.0. *)
Definition one32 : float32 := Eval vm_compute in float32_of_int 1.







(** What every run of the script keeps: the constraints of the schema, every
    stored record naming a row of [users], the logged-in user naming a row
    of [users] with its id and email, and a page name the router knows. *)
Definition session_ok {Image : Type} (w : @world Image) : Prop :=
  wf_db (w_db w)
  ∧ (∀ p, p ∈ predictions (w_db w) →
       ∃ u, u ∈ users (w_db w) ∧ u_id u = p_user_id p)
  ∧ (∀ u, w_user w = Some u →
       ∃ u', u' ∈ users (w_db w) ∧ u_id u' = u_id u ∧ u_email u' = u_email u)
  ∧ w_page w ∈ ["auth"; "upload"; "profile"; "records"].

(** The characters of a lowercase hexadecimal digest. *)
Definition is_lower_hex (c : ascii) : bool :=
  existsb (Ascii.eqb c) (String.list_ascii_of_string "0123456789abcdef").

(** The numbered records among the events of a run. *)
Definition shown_records {Image : Type} (evs : list (@app_event Image))
  : list (nat * record) :=
  omap (λ e, match e with RecordLine i r => Some (i, r) | _ => None end) evs.

(** ** Sample inputs *)

(** The float32 numbers 0.25 and 0.5, a network that scores every image
    [0.25; 0.5; 0.5; 0.25], and a label index for three of the four
    positions. *)
Definition quarter32 : float32 := S754_finite false 8388608 (-25).
Definition half32 : float32 := S754_finite false 8388608 (-24).
Definition sample_model : @keras_model unit :=
  λ _, [quarter32; half32; half32; quarter32].
Definition sample_classes : gmap Z string :=
  invert_classes [("Gir", 0); ("Sahiwal", 1); ("Invalid", 2)].

(** Widgets nobody touched (the number inputs at their defaults), and a run
    of the script in which only the login page is used. *)
Definition idle_upload : @upload_widgets unit :=
  {| up := None; cam := None; predict_clicked := false; breed_edit := None;
     height_in := float_of_int 120; weight_in := float_of_int 300;
     age_in := float_of_int 3; gender_in := "Male"; save_clicked := false |}.
Definition idle_profile : profile_widgets :=
  {| name_in := None; phone_in := None; address_in := None;
     save_profile_clicked := false; logout_clicked := false |}.
Definition auth_run (opt : auth_menu) (e p : string) (clicked : bool)
  : @script_inputs unit :=
  {| auth_opt := opt; auth_email := e; auth_password := p;
     auth_clicked := clicked; upload_in := idle_upload;
     profile_in := idle_profile; home_clicked := false;
     profile_clicked := false; records_clicked := false |}.

(** * Properties *)

Example sha256_abc :
  Sha256.hexdigest "abc"
  = "ba7816bf8f01cfea414140de5dae2223b00361a396177a9cb410ff61f20015ad".
Proof. vm_compute. reflexivity. Qed.

Example sha256_empty :
  Sha256.hexdigest ""
  = "e3b0c44298fc1c149afbf4c8996fb92427ae41e4649b934ca495991b7852b855".
Proof. vm_compute. reflexivity. Qed.

Example sha256_pw1 :
  hash_pw "pw1"
  = "c592df4a86933b92addc9842402ddf198c638ea9be58916ee6e3734e1e3152f8".
Proof. vm_compute. reflexivity. Qed.

(** From here on the digest is used through its equations only. *)
Local Opaque hash_pw.

(** ** The schema's constraints as an invariant of the store *)

Lemma max_rowid_ge ids i : i ∈ ids → i ≤ max_rowid ids.
Proof.
  unfold max_rowid. induction ids as [|j ids IH]; cbn [foldr]; intros Hin.
  - by apply elem_of_nil in Hin.
  - apply elem_of_cons in Hin as [->|Hin]; [lia|]. specialize (IH Hin). lia.
Qed.

Lemma next_rowid_fresh seq ids : next_rowid seq ids ∉ ids.
Proof.
  intros Hin. apply max_rowid_ge in Hin. unfold next_rowid in Hin. lia.
Qed.

Lemma next_rowid_above seq ids i : i ∈ ids → i < next_rowid seq ids.
Proof. intros Hin. apply max_rowid_ge in Hin. unfold next_rowid. lia. Qed.

Lemma existsb_email_false l email :
  existsb (λ u, String.eqb (u_email u) email) l = false ↔ email ∉ u_email <$> l.
Proof.
  induction l as [|u l IH]; cbn.
  - split; [intros _; apply not_elem_of_nil | done].
  - rewrite orb_false_iff, IH, not_elem_of_cons, String.eqb_neq.
    intuition congruence.
Qed.

Lemma existsb_email_true l email :
  existsb (λ u, String.eqb (u_email u) email) l = true ↔ email ∈ u_email <$> l.
Proof.
  destruct (existsb _ l) eqn:E.
  - split; [intros _|done]. destruct (decide (email ∈ u_email <$> l)); [done|].
    apply existsb_email_false in n. congruence.
  - apply existsb_email_false in E. split; [done|]. intros; contradiction.
Qed.

Lemma wf_empty_db : wf_db empty_db.
Proof. repeat split; constructor. Qed.

Lemma wf_add_user d email pw : wf_db d → wf_db (add_user d email pw).2.
Proof.
  intros (Hid & Hem & Hp). unfold add_user, insert_user.
  destruct (existsb _ _) eqn:E; cbn; [done|].
  apply existsb_email_false in E.
  repeat split; cbn; [| |done]; rewrite fmap_app; cbn;
    apply NoDup_app; (split; [done|]); (split; [|apply NoDup_singleton]);
    intros x Hx ->%list_elem_of_singleton; [|done].
  by apply next_rowid_fresh in Hx.
Qed.

Lemma wf_save_prediction d uid breed h w age g path now :
  wf_db d → wf_db (save_prediction d uid breed h w age g path now).2.
Proof.
  intros (Hid & Hem & Hp). repeat split; cbn; [done..|].
  rewrite fmap_app; cbn. apply NoDup_app. split; [done|].
  split; [|apply NoDup_singleton].
  intros x Hx ->%list_elem_of_singleton. by apply next_rowid_fresh in Hx.
Qed.

Lemma set_profile_id uid n p a u : u_id (set_profile uid n p a u) = u_id u.
Proof. unfold set_profile. by destruct (_ =? _). Qed.

Lemma set_profile_email uid n p a u : u_email (set_profile uid n p a u) = u_email u.
Proof. unfold set_profile. by destruct (_ =? _). Qed.

Lemma set_profile_password uid n p a u :
  u_password (set_profile uid n p a u) = u_password u.
Proof. unfold set_profile. by destruct (_ =? _). Qed.

Lemma set_profile_other uid n p a u : u_id u ≠ uid → set_profile uid n p a u = u.
Proof. unfold set_profile. intros H. destruct (Z.eqb_spec (u_id u) uid); done. Qed.

Lemma wf_update_profile d uid n p a : wf_db d → wf_db (update_profile d uid n p a).2.
Proof.
  intros (Hid & Hem & Hp). repeat split; cbn; [| |done]; rewrite <- list_fmap_compose.
  - erewrite list_fmap_ext; [exact Hid|]. intros ? u _. apply set_profile_id.
  - erewrite list_fmap_ext; [exact Hem|]. intros ? u _. apply set_profile_email.
Qed.

(** ** Credential store *)

Lemma find_none_app {A} (f : A → bool) l x :
  List.find f l = None → List.find f (l ++ [x]) = if f x then Some x else None.
Proof.
  induction l as [|y l IH]; cbn; [done|]. destruct (f y); [done|]. exact IH.
Qed.

Lemma find_email_none l email pw :
  email ∉ u_email <$> l →
  List.find (λ u, String.eqb (u_email u) email
                  && String.eqb (u_password u) (hash_pw pw)) l = None.
Proof.
  induction l as [|u l IH]; cbn; [done|].
  rewrite not_elem_of_cons. intros [Hne Hl].
  apply not_eq_sym, String.eqb_neq in Hne. rewrite Hne. cbn. by apply IH.
Qed.

(** C1. For every store, email and password such that no account with that
    email exists, [add_user] succeeds, and [login_user] with the same
    credentials on the resulting store returns a user record; that record
    carries the supplied email (and the hash of the supplied password). *)
Theorem add_user_then_login (d : db) (email pw : string) :
  (∀ u, u ∈ users d → u_email u ≠ email) →
  ∃ d' u,
    add_user d email pw = (Ok (), d')
    ∧ login_user d' email pw = Some u
    ∧ u ∈ users d'
    ∧ u_email u = email
    ∧ u_password u = hash_pw pw.
Proof.
  intros Hfresh.
  assert (Hnot : email ∉ u_email <$> users d).
  { intros (u & Heq & Hu)%list_elem_of_fmap. by apply (Hfresh u). }
  unfold add_user, insert_user.
  rewrite (proj2 (existsb_email_false _ _) Hnot).
  eexists _, _. split; [reflexivity|].
  unfold login_user; cbn [users].
  rewrite find_none_app by by apply find_email_none.
  cbn [u_email u_password]. rewrite !String.eqb_refl. cbn.
  repeat split. apply elem_of_app. right. apply list_elem_of_singleton. done.
Qed.

Lemma add_user_then_login_witness :
  ∃ d' u,
    add_user empty_db "a@x.com" "pw1" = (Ok (), d')
    ∧ login_user d' "a@x.com" "pw1" = Some u
    ∧ u ∈ users d'
    ∧ u_email u = "a@x.com"
    ∧ u_password u = hash_pw "pw1".
Proof.
  apply (add_user_then_login empty_db "a@x.com" "pw1").
  intros u Hu. cbn in Hu. by apply elem_of_nil in Hu.
Defined.

(** C4. For every email already present in [users], [add_user] raises the
    integrity error of the UNIQUE constraint and leaves the store as it
    was, so the table keeps its rows and its size; the sign-up page reports
    the failure. *)
Theorem add_user_duplicate (d : db) (email pw : string) :
  (∃ u, u ∈ users d ∧ u_email u = email) →
  add_user d email pw
  = (Raise (IntegrityError "UNIQUE constraint failed: users.email"), d)
  ∧ users (add_user d email pw).2 = users d
  ∧ length (users (add_user d email pw).2) = length (users d)
  ∧ ∀ (Image : Type) (w : @world Image),
      w_db w = d →
      page_auth SignUp email pw true w
      = {| shown := [ Header "🔑 Login / Signup";
                      Error "⚠ Email exists or error: UNIQUE constraint failed: users.email" ];
           after := w; uncaught := None |}.
Proof.
  intros (u & Hu & Heq).
  assert (Hin : email ∈ u_email <$> users d).
  { apply list_elem_of_fmap. by exists u. }
  assert (Hadd : add_user d email pw
            = (Raise (IntegrityError "UNIQUE constraint failed: users.email"), d)).
  { unfold add_user, insert_user.
    by rewrite (proj2 (existsb_email_true _ _) Hin). }
  rewrite Hadd. repeat split.
  intros Image w <-. unfold page_auth. cbn [negb]. rewrite Hadd.
  by destruct w.
Qed.

Lemma add_user_duplicate_witness :
  let d := (add_user empty_db "a@x.com" "pw1").2 in
  (∃ u, u ∈ users d ∧ u_email u = "a@x.com")
  ∧ add_user d "a@x.com" "other"
    = (Raise (IntegrityError "UNIQUE constraint failed: users.email"), d).
Proof.
  assert (Hex : ∃ u, u ∈ users (add_user empty_db "a@x.com" "pw1").2
                     ∧ u_email u = "a@x.com").
  { eexists. split; [apply list_elem_of_singleton; reflexivity | reflexivity]. }
  split; [exact Hex|].
  exact (proj1 (add_user_duplicate _ "a@x.com" "other" Hex)).
Defined.

Lemma NoDup_fmap_eq {A B} (f : A → B) (l : list A) x y :
  NoDup (f <$> l) → x ∈ l → y ∈ l → f x = f y → x = y.
Proof.
  induction l as [|a l IH]; cbn; intros Hnd Hx Hy Hf.
  - by apply elem_of_nil in Hx.
  - apply NoDup_cons in Hnd as [Ha Hnd].
    apply elem_of_cons in Hx as [->|Hx]; apply elem_of_cons in Hy as [->|Hy];
      [done| | |by apply IH].
    + exfalso. apply Ha. rewrite Hf. by apply list_elem_of_fmap_2.
    + exfalso. apply Ha. rewrite <- Hf. by apply list_elem_of_fmap_2.
Qed.

Lemma login_user_some d email pw u :
  login_user d email pw = Some u →
  u ∈ users d ∧ u_email u = email ∧ u_password u = hash_pw pw.
Proof.
  unfold login_user. intros [Hin Hf]%find_some.
  apply andb_true_iff in Hf as [He Hp].
  apply String.eqb_eq in He, Hp. by rewrite <- list_elem_of_In in Hin.
Qed.

Lemma login_user_none d email pw :
  login_user d email pw = None ↔
  ¬ ∃ u, u ∈ users d ∧ u_email u = email ∧ u_password u = hash_pw pw.
Proof.
  split.
  - unfold login_user. intros Hnone (u & Hin & He & Hp).
    apply list_elem_of_In in Hin.
    pose proof (find_none _ _ Hnone u Hin) as Hf. cbn in Hf.
    rewrite He, Hp, !String.eqb_refl in Hf. done.
  - intros Hno. destruct (login_user d email pw) as [u|] eqn:E; [|done].
    exfalso. apply Hno. exists u. by apply login_user_some.
Qed.

(** C9. On a store whose emails are unique (the UNIQUE constraint),
    [login_user] returns a user record exactly when that record is an
    account with the supplied email whose stored hash is the hash of the
    supplied password, and returns [None] exactly when there is no such
    account. An attempt with a wrong password for an existing email and an
    attempt with an email that has no account give the same outcome, both
    as the value [login_user] returns and as what the login page shows and
    leaves behind. *)
Theorem login_user_iff (d : db) (email pw : string) :
  NoDup (u_email <$> users d) →
  (∀ u, login_user d email pw = Some u
        ↔ u ∈ users d ∧ u_email u = email ∧ u_password u = hash_pw pw)
  ∧ (login_user d email pw = None
     ↔ ¬ ∃ u, u ∈ users d ∧ u_email u = email ∧ u_password u = hash_pw pw)
  ∧ (∀ email' pw',
        email ∈ u_email <$> users d →
        (∀ u, u ∈ users d → u_email u = email → u_password u ≠ hash_pw pw) →
        email' ∉ u_email <$> users d →
        login_user d email pw = None
        ∧ login_user d email' pw' = None
        ∧ ∀ (Image : Type) (w : @world Image),
            w_db w = d →
            page_auth Login email pw true w = page_auth Login email' pw' true w).
Proof.
  intros Hnd. split; [|split].
  - intros u. split; [apply login_user_some|].
    intros (Hin & He & Hp).
    destruct (login_user d email pw) as [u'|] eqn:E.
    + apply login_user_some in E as (Hin' & He' & _).
      f_equal. apply (NoDup_fmap_eq u_email (users d)); congruence.
    + apply login_user_none in E. exfalso. apply E. by exists u.
  - apply login_user_none.
  - intros email' pw' _ Hwrong Hfresh.
    assert (H1 : login_user d email pw = None).
    { apply login_user_none. intros (u & Hin & He & Hp). by apply (Hwrong u). }
    assert (H2 : login_user d email' pw' = None).
    { apply login_user_none. intros (u & Hin & He & Hp). apply Hfresh.
      rewrite <- He. by apply list_elem_of_fmap_2. }
    repeat split; [done..|].
    intros Image w <-. unfold page_auth; cbn. by rewrite H1, H2.
Qed.

Lemma login_user_iff_witness :
  let d := (add_user empty_db "a@x.com" "pw1").2 in
  NoDup (u_email <$> users d)
  ∧ (∀ u, login_user d "a@x.com" "pw1" = Some u
          ↔ u ∈ users d ∧ u_email u = "a@x.com" ∧ u_password u = hash_pw "pw1")
  ∧ (login_user d "a@x.com" "pw1" = None
     ↔ ¬ ∃ u, u ∈ users d ∧ u_email u = "a@x.com" ∧ u_password u = hash_pw "pw1").
Proof.
  assert (Hnd : NoDup (u_email <$> users (add_user empty_db "a@x.com" "pw1").2)).
  { cbn. apply NoDup_singleton. }
  split; [exact Hnd|].
  pose proof (login_user_iff (add_user empty_db "a@x.com" "pw1").2
                "a@x.com" "pw1" Hnd) as (H1 & H2 & _).
  split; [exact H1 | exact H2].
Defined.

(** The profile update never fails and rewrites at most the three profile
    columns of the rows whose id matches. *)
Lemma update_profile_users d uid n p a :
  users (update_profile d uid n p a).2 = set_profile uid n p a <$> users d.
Proof. reflexivity. Qed.



(** C10. [update_profile] keeps both sequence counters and the whole
    [predictions] table, keeps the number and the order of the rows of
    [users], keeps the id, email and password hash of every row, and keeps
    every row whose id is not the given one as it is. *)
Theorem update_profile_frame (d : db) (uid : Z) (n p a : string) :
  predictions (update_profile d uid n p a).2 = predictions d
  ∧ predictions_seq (update_profile d uid n p a).2 = predictions_seq d
  ∧ users_seq (update_profile d uid n p a).2 = users_seq d
  ∧ length (users (update_profile d uid n p a).2) = length (users d)
  ∧ (∀ i u, users d !! i = Some u →
       ∃ u', users (update_profile d uid n p a).2 !! i = Some u'
             ∧ u_id u' = u_id u
             ∧ u_email u' = u_email u
             ∧ u_password u' = u_password u
             ∧ (u_id u ≠ uid → u' = u)).
Proof.
  repeat split; [by rewrite update_profile_users, length_fmap|].
  intros i u Hu. exists (set_profile uid n p a u).
  rewrite update_profile_users, list_lookup_fmap, Hu.
  split; [reflexivity|].
  split; [apply set_profile_id|]. split; [apply set_profile_email|].
  split; [apply set_profile_password | apply set_profile_other].
Qed.

(** ** Prediction store *)






Lemma save_prediction_ok d uid breed h w age g path now :
  save_prediction d uid breed h w age g path now
  = (Ok (),
     {| users := users d; users_seq := users_seq d;
        predictions := predictions d ++
          [ {| p_id := next_rowid (predictions_seq d) (p_id <$> predictions d);
               p_user_id := uid; p_breed := breed; p_height := h;
               p_weight := w; p_gender := g; p_image_path := path;
               p_age := age; p_created_at := now |} ];
        predictions_seq := next_rowid (predictions_seq d) (p_id <$> predictions d) |}).
Proof. reflexivity. Qed.



(** X1. Saving a record for one user leaves what [get_records] returns
    for every other user as it was. *)
Theorem get_records_save_other d uid uid' breed h w age g path now :
  uid' ≠ uid →
  get_records (save_prediction d uid breed h w age g path now).2 uid'
  = get_records d uid'.
Proof.
  intros Hne. rewrite save_prediction_ok. unfold get_records; cbn [snd predictions].
  rewrite List.filter_app. cbn [List.filter p_user_id].
  destruct (Z.eqb_spec uid uid'); [congruence|]. by rewrite app_nil_r.
Qed.

(** With [PRAGMA foreign_keys] on, the engine rejects the insert that
    names an absent user. *)
Lemma insert_prediction_enforced d uid breed h w age g path now :
  (∀ u, u ∈ users d → u_id u ≠ uid) →
  insert_prediction true d uid breed h w age g path now
  = (Raise (IntegrityError "FOREIGN KEY constraint failed"), d).
Proof.
  intros Hno. unfold insert_prediction.
  replace (existsb _ (users d)) with false; [done|].
  symmetry. induction (users d) as [|u l IH]; cbn; [done|].
  rewrite IH by (intros v Hv; apply Hno; by right).
  destruct (Z.eqb_spec (u_id u) uid) as [Heq|_]; [|done].
  exfalso. apply (Hno u); [left|done].
Qed.

(** C2, what the code does: on the empty store, where no user has id 42,
    [save_prediction] for user 42 returns normally and the row is in
    [predictions] afterwards. *)
Theorem save_prediction_missing_user_inserts :
  (∀ u, u ∈ users empty_db → u_id u ≠ 42)
  ∧ (save_prediction empty_db 42 "Gir" (float_of_int 130) (float_of_int 350)
       (float_of_int 4) "Female" "temp/cow.jpg" "2025-09-01 10:00:00").1 = Ok ()
  ∧ length (predictions
       (save_prediction empty_db 42 "Gir" (float_of_int 130) (float_of_int 350)
          (float_of_int 4) "Female" "temp/cow.jpg" "2025-09-01 10:00:00").2) = 1%nat
  ∧ get_records
       (save_prediction empty_db 42 "Gir" (float_of_int 130) (float_of_int 350)
          (float_of_int 4) "Female" "temp/cow.jpg" "2025-09-01 10:00:00").2 42
    = [ {| r_breed := "Gir"; r_height := float_of_int 130;
           r_weight := float_of_int 350; r_age := float_of_int 4;
           r_gender := "Female"; r_image_path := "temp/cow.jpg";
           r_created_at := "2025-09-01 10:00:00" |} ].
Proof.
  split; [|repeat split].
  intros u Hu. by apply elem_of_nil in Hu.
Qed.

(** ** Classifier adapter: the order of [SFcompare] *)












(** ** [np.argmax] *)



(** ** Rounding of the percentage *)









(** ** [float()] of a float32 *)





(** ** Classifier adapter: [predict] *)

(** A missing or unreadable artifact leaves the adapter without a model. *)
Lemma load_classifier_unavailable {Image : Type}
    (model_file : option (result (@keras_model Image)))
    (class_file : option (result (list (string * Z)))) :
  (load_classifier model_file class_file).1 = None
  ↔ ¬ ∃ m items, model_file = Some (Ok m) ∧ class_file = Some (Ok items).
Proof.
  unfold load_classifier. split.
  - intros H (m & items & -> & ->). discriminate H.
  - intros H. destruct model_file as [[m|?]|]; [|done..].
    destruct class_file as [[items|?]|]; [|done..].
    exfalso. apply H. by eexists _, _.
Qed.

(** C6. Without a loaded model, [predict] returns the label "Unknown" with
    the integer 0 for every label index and every image, and raises
    nothing; as a float, the way the page formats it, that confidence is
    +0.0. *)
Theorem predict_unavailable {Image : Type} (idx_to_class : gmap Z string)
    (img : Image) :
  predict None idx_to_class img = Ok ("Unknown", PyInt 0)
  ∧ py_float (PyInt 0) = S754_zero false.
Proof. split; reflexivity. Qed.




(** A position the label index does not cover is reported as "Unknown". *)
Example predict_sample_unlabelled :
  predict (Some (λ _ : unit, [quarter32; quarter32; quarter32; half32]))
          sample_classes ()
  = Ok ("Unknown", PyFloat (float_of_int 50)).
Proof. by vm_compute. Qed.

(** An empty score vector makes [np.argmax] raise. *)
Example predict_empty :
  predict (Some (λ _ : unit, [])) sample_classes ()
  = Raise (ValueError "attempt to get argmax of an empty sequence").
Proof. reflexivity. Qed.

(** A NaN counts as the maximum: the scan stops on the first one. *)
Lemma argmax_scan_at_nan mi i l : argmax_scan S754_nan mi i l = mi.
Proof. by destruct l. Qed.

Lemma argmax_scan_first_nan l1 l2 : ∀ mp mi i,
  is_nan mp = false →
  Forall (λ x, is_nan x = false) l1 →
  argmax_scan mp mi i (l1 ++ S754_nan :: l2) = (i + length l1)%nat.
Proof.
  induction l1 as [|x l1 IH]; intros mp mi i Hmp Hl1; cbn [app argmax_scan length].
  - rewrite Hmp. replace (SFleb S754_nan mp) with false by by destruct mp.
    rewrite argmax_scan_at_nan. lia.
  - apply Forall_cons in Hl1 as [Hx Hl1]. rewrite Hmp.
    destruct (SFleb x mp); rewrite IH by done; lia.
Qed.

(** X2. When the score vector holds a NaN, [np.argmax] returns the position
    of the first one, whatever the other scores are. *)
Theorem np_argmax_first_nan l1 l2 :
  Forall (λ x, is_nan x = false) l1 →
  np_argmax (l1 ++ S754_nan :: l2) = Ok (length l1).
Proof.
  destruct l1 as [|x l1]; intros Hl1; cbn [app np_argmax length].
  - by rewrite argmax_scan_at_nan.
  - apply Forall_cons in Hl1 as [Hx Hl1]. by rewrite argmax_scan_first_nan.
Qed.

(** ** Workflow *)

(** Follow a run of [page_upload] up to the save button; the runs that stop
    before it leave the store alone. *)
Ltac page_upload_cases ws :=
  unfold page_upload;
  destruct (chosen_image ws) as [[? ?]|]; [|done];
  destruct (predict_clicked ws); [|done]; cbn [negb];
  destruct (predict _ _ _) as [[? ?]|?]; [|done].

Lemma page_upload_no_image {Image : Type} (model : option (@keras_model Image))
    idx_to_class ws now w :
  chosen_image ws = None →
  page_upload model idx_to_class ws now w
  = {| shown := [Header "📸 Upload / Capture Image"]; after := w; uncaught := None |}.
Proof. intros H. unfold page_upload. by rewrite H. Qed.



(** A save pressed while logged out: the page warns and stores nothing. *)
Example page_upload_logged_out :
  let ws := {| up := Some ("cow.jpg", ()); cam := None; predict_clicked := true;
               breed_edit := Some "Gir"; height_in := float_of_int 130;
               weight_in := float_of_int 350; age_in := float_of_int 4;
               gender_in := "Female"; save_clicked := true |} in
  let w := {| w_db := empty_db; w_files := ∅; w_user := None; w_page := "upload" |} in
  shown (page_upload (Some sample_model) sample_classes ws "2025-09-01 10:00:00" w)
  = [ Header "📸 Upload / Capture Image"; ShowImage ();
      ShowPrediction "Sahiwal" (PyFloat (float_of_int 50));
      Warning "Login first to save" ]
  ∧ w_db (after (page_upload (Some sample_model) sample_classes ws
                   "2025-09-01 10:00:00" w)) = empty_db.
Proof. split; by vm_compute. Qed.

(** ** The scenario of the design document *)

(** Create the account, log in, save the edited record, list the records. *)
Example scenario_gir :
  let d1 := (add_user empty_db "a@x.com" "pw1").2 in
  ∃ u, login_user d1 "a@x.com" "pw1" = Some u
       ∧ u_id u = 1
       ∧ get_records
           (save_prediction d1 (u_id u) "Gir" (float_of_int 130)
              (float_of_int 350) (float_of_int 4) "Female" "temp/cow.jpg"
              "2025-09-01 10:00:00").2 (u_id u)
         = [ {| r_breed := "Gir"; r_height := float_of_int 130;
                r_weight := float_of_int 350; r_age := float_of_int 4;
                r_gender := "Female"; r_image_path := "temp/cow.jpg";
                r_created_at := "2025-09-01 10:00:00" |} ].
Proof.
  eexists. split; [by vm_compute|]. split; reflexivity.
Qed.

(** * Further properties of the code *)

(** ** The store functions together *)

(** X4. On a store that meets the constraints of the schema (unique user
    ids, unique emails, unique record ids), each of [add_user],
    [save_prediction] and [update_profile] returns a store that meets them
    again, whatever its arguments and whether or not it raises. *)
Theorem schema_constraints_kept (d : db) :
  wf_db d →
  (∀ email pw, wf_db (add_user d email pw).2)
  ∧ (∀ uid breed h w age g path now,
       wf_db (save_prediction d uid breed h w age g path now).2)
  ∧ (∀ uid n p a, wf_db (update_profile d uid n p a).2).
Proof.
  intros Hwf. split; [|split]; intros.
  - by apply wf_add_user.
  - by apply wf_save_prediction.
  - by apply wf_update_profile.
Qed.

Lemma schema_constraints_kept_witness :
  wf_db empty_db
  ∧ wf_db (add_user (add_user empty_db "a@x.com" "pw1").2 "a@x.com" "pw2").2
  ∧ wf_db (update_profile (add_user empty_db "a@x.com" "pw1").2 1 "A" "1" "x").2.
Proof.
  split; [exact wf_empty_db|].
  pose proof (schema_constraints_kept empty_db wf_empty_db) as (Ha & _ & _).
  pose proof (schema_constraints_kept _ (Ha "a@x.com" "pw1")) as (Ha' & _ & Hu).
  split; [apply Ha' | apply Hu].
Defined.

Lemma find_fmap_stable {A} (f : A → bool) (g : A → A) l :
  (∀ x, f (g x) = f x) → List.find f (g <$> l) = g <$> List.find f l.
Proof.
  intros Hfg. induction l as [|x l IH]; cbn; [done|].
  rewrite Hfg. by destruct (f x).
Qed.

(** X5. Logging in after a profile update succeeds exactly when it
    succeeded before, and returns the same account with the profile the
    update gave it: the update touches neither email nor password hash. *)
Theorem login_after_update_profile (d : db) (uid : Z) (n p a email pw : string) :
  login_user (update_profile d uid n p a).2 email pw
  = set_profile uid n p a <$> login_user d email pw.
Proof.
  unfold login_user. rewrite update_profile_users.
  apply find_fmap_stable. intros u.
  by rewrite set_profile_email, set_profile_password.
Qed.

Lemma set_profile_twice uid n p a n' p' a' u :
  set_profile uid n' p' a' (set_profile uid n p a u) = set_profile uid n' p' a' u.
Proof.
  unfold set_profile. destruct (u_id u =? uid) eqn:E; cbn; by rewrite E.
Qed.

Lemma set_profile_comm uid1 uid2 n1 p1 a1 n2 p2 a2 u :
  uid1 ≠ uid2 →
  set_profile uid1 n1 p1 a1 (set_profile uid2 n2 p2 a2 u)
  = set_profile uid2 n2 p2 a2 (set_profile uid1 n1 p1 a1 u).
Proof.
  intros Hne. unfold set_profile.
  destruct (Z.eqb_spec (u_id u) uid1) as [H1|H1],
           (Z.eqb_spec (u_id u) uid2) as [H2|H2]; cbn;
    try congruence;
    repeat match goal with
           | |- context [?x =? ?y] => destruct (Z.eqb_spec x y); try congruence
           end.
Qed.

(** X6. Two profile updates of the same user leave the store as the second
    one alone would (the last write wins, and repeating an update changes
    nothing more); updates of two different users can be done in either
    order. *)
Theorem update_profile_last_wins (d : db) (uid : Z) (n p a n' p' a' : string) :
  (update_profile (update_profile d uid n p a).2 uid n' p' a').2
  = (update_profile d uid n' p' a').2
  ∧ ∀ uid2 n2 p2 a2,
      uid ≠ uid2 →
      (update_profile (update_profile d uid n p a).2 uid2 n2 p2 a2).2
      = (update_profile (update_profile d uid2 n2 p2 a2).2 uid n p a).2.
Proof.
  split.
  - unfold update_profile; cbn. f_equal. rewrite <- list_fmap_compose.
    apply list_fmap_ext. intros i u _. apply set_profile_twice.
  - intros uid2 n2 p2 a2 Hne. unfold update_profile; cbn. f_equal.
    rewrite <- !list_fmap_compose. apply list_fmap_ext. intros i u _. cbn.
    by apply set_profile_comm.
Qed.

Lemma find_snoc {A} (f : A → bool) l x :
  List.find f (l ++ [x])
  = match List.find f l with
    | Some y => Some y
    | None => if f x then Some x else None
    end.
Proof.
  induction l as [|y l IH]; cbn; [done|]. by destruct (f y).
Qed.

(** X7. Creating an account, whether it succeeds or is refused, changes
    the outcome of no login attempt made with another email. *)
Theorem add_user_keeps_other_logins (d : db) (email pw email' pw' : string) :
  email' ≠ email →
  login_user (add_user d email pw).2 email' pw' = login_user d email' pw'.
Proof.
  intros Hne. unfold add_user, insert_user.
  destruct (existsb _ _); [done|]. unfold login_user; cbn [snd users].
  rewrite find_snoc. destruct (List.find _ (users d)); [done|].
  cbn [u_email]. by rewrite (proj2 (String.eqb_neq _ _)) by congruence.
Qed.

Lemma add_user_keeps_other_logins_witness :
  "b@x.com" ≠ "a@x.com"
  ∧ login_user (add_user empty_db "a@x.com" "pw1").2 "b@x.com" "pw1"
    = login_user empty_db "b@x.com" "pw1".
Proof.
  assert (H : "b@x.com" ≠ "a@x.com") by discriminate.
  split; [exact H|].
  exact (add_user_keeps_other_logins empty_db "a@x.com" "pw1" "b@x.com" "pw1" H).
Defined.

(** X8. After an account is created for a new email, a login with that
    email and a password whose digest differs from the stored one finds no
    match. *)
Theorem login_wrong_password_after_signup (d : db) (email pw pw' : string) :
  (∀ u, u ∈ users d → u_email u ≠ email) →
  hash_pw pw' ≠ hash_pw pw →
  login_user (add_user d email pw).2 email pw' = None.
Proof.
  intros Hfresh Hhash.
  assert (Hnot : email ∉ u_email <$> users d).
  { intros (u & Heq & Hu)%list_elem_of_fmap. by apply (Hfresh u). }
  unfold add_user, insert_user.
  rewrite (proj2 (existsb_email_false _ _) Hnot).
  unfold login_user; cbn [snd users].
  rewrite find_snoc, find_email_none by done.
  cbn [u_email u_password]. rewrite String.eqb_refl.
  by rewrite (proj2 (String.eqb_neq _ _)) by congruence.
Qed.

Lemma login_wrong_password_after_signup_witness :
  hash_pw "pw2" ≠ hash_pw "pw1"
  ∧ login_user (add_user empty_db "a@x.com" "pw1").2 "a@x.com" "pw2" = None.
Proof.
  assert (H : hash_pw "pw2" ≠ hash_pw "pw1") by (vm_compute; discriminate).
  split; [exact H|].
  apply (login_wrong_password_after_signup empty_db "a@x.com" "pw1" "pw2"); [|exact H].
  intros u Hu. cbn in Hu. by apply elem_of_nil in Hu.
Defined.

(** ** The password digest *)

Local Transparent hash_pw.

Lemma hex_length bs : String.length (Sha256.hex bs) = (2 * length bs)%nat.
Proof.
  unfold Sha256.hex. induction bs as [|b bs IH]; cbn [foldr String.length]; [done|].
  rewrite IH. cbn [length]. lia.
Qed.

Lemma step_length v kw : length (Sha256.step v kw) = length v.
Proof.
  destruct v as [|a [|b [|c [|d0 [|e [|f [|g [|h [|]]]]]]]]]; reflexivity.
Qed.

Lemma foldl_step_length l : ∀ h, length (foldl Sha256.step h l) = length h.
Proof.
  induction l as [|kw l IH]; intros h; cbn; [done|].
  by rewrite IH, step_length.
Qed.

Lemma compress_length h block : length (Sha256.compress h block) = length h.
Proof.
  unfold Sha256.compress. rewrite length_zip_with, foldl_step_length. lia.
Qed.

Lemma foldl_compress_length blocks : ∀ h,
  length (foldl Sha256.compress h blocks) = length h.
Proof.
  induction blocks as [|b blocks IH]; intros h; cbn; [done|].
  by rewrite IH, compress_length.
Qed.

Lemma be_bytes_range n x : Forall (λ b, 0 ≤ b < 256) (Sha256.be_bytes n x).
Proof.
  induction n as [|n IH]; cbn; constructor; [|done].
  apply Z.mod_pos_bound. lia.
Qed.

Lemma digest_length msg : length (Sha256.digest msg) = 32%nat.
Proof.
  unfold Sha256.digest.
  pose proof (foldl_compress_length
                (Sha256.chunks (length (Sha256.pad msg)) 64 (Sha256.pad msg))
                Sha256.initial_hash) as Hlen.
  change (length Sha256.initial_hash) with 8%nat in Hlen.
  destruct (foldl _ _ _) as [|a [|b [|c [|d0 [|e [|f [|g [|h [|]]]]]]]]];
    try discriminate Hlen.
  reflexivity.
Qed.

Lemma digest_range msg : Forall (λ b, 0 ≤ b < 256) (Sha256.digest msg).
Proof.
  unfold Sha256.digest. apply Forall_bind, Forall_forall.
  intros x _. apply be_bytes_range.
Qed.

Lemma hex_digit_lower n : 0 ≤ n < 16 → is_lower_hex (Sha256.hex_digit n) = true.
Proof.
  intros Hn.
  assert (Hcases : n ∈ seqZ 0 16) by (apply elem_of_seqZ; lia).
  cbn in Hcases. repeat (apply elem_of_cons in Hcases as [->|Hcases]; [done|]).
  by apply elem_of_nil in Hcases.
Qed.

Lemma hex_lower bs :
  Forall (λ b, 0 ≤ b < 256) bs →
  Forall (λ c, is_lower_hex c = true) (String.list_ascii_of_string (Sha256.hex bs)).
Proof.
  unfold Sha256.hex.
  induction 1 as [|b bs Hb Hbs IH]; cbn [foldr String.list_ascii_of_string];
    [constructor|].
  constructor; [|constructor; [|exact IH]]; apply hex_digit_lower.
  - split; [apply Z.div_pos; lia | apply Z.div_lt_upper_bound; lia].
  - apply Z.mod_pos_bound. lia.
Qed.

(** X9. For every password, [hash_pw] returns exactly 64 characters, each
    one of [0-9a-f]: what [add_user] stores as the password always has the
    shape of a SHA-256 hex digest. *)
Theorem hash_pw_shape (p : string) :
  String.length (hash_pw p) = 64%nat
  ∧ Forall (λ c, is_lower_hex c = true) (String.list_ascii_of_string (hash_pw p)).
Proof.
  unfold hash_pw, Sha256.hexdigest. split.
  - by rewrite hex_length, digest_length.
  - apply hex_lower, digest_range.
Qed.

Local Opaque hash_pw.

(** ** Loading the classifier *)

Lemma foldl_invert_notin items : ∀ (m : gmap Z string) i,
  i ∉ items.*2 →
  foldl (λ m kv, <[kv.2 := kv.1]> m) m items !! i = m !! i.
Proof.
  induction items as [|[k j] items IH]; intros m i Hi; cbn; [done|].
  cbn in Hi. apply not_elem_of_cons in Hi as [Hne Hi].
  rewrite IH by done. by rewrite lookup_insert_ne.
Qed.

(** X10. The label index built from the class file maps an output position
    to the class name of the last item of the file that carries that
    position, and has no entry for a position no item carries. When the
    positions of the file are pairwise distinct, every item [(name, i)] is
    found back as [idx_to_class[i] = name]. *)
Theorem invert_classes_lookup (items : list (string * Z)) :
  (∀ l1 k i l2, items = l1 ++ (k, i) :: l2 → i ∉ l2.*2 →
     invert_classes items !! i = Some k)
  ∧ (∀ i, i ∉ items.*2 → invert_classes items !! i = None)
  ∧ (NoDup items.*2 → ∀ k i, (k, i) ∈ items → invert_classes items !! i = Some k).
Proof.
  assert (Hlast : ∀ l1 k i l2, items = l1 ++ (k, i) :: l2 → i ∉ l2.*2 →
            invert_classes items !! i = Some k).
  { intros l1 k i l2 -> Hi. unfold invert_classes.
    rewrite foldl_app. cbn. rewrite foldl_invert_notin by done.
    by rewrite lookup_insert_eq. }
  split; [exact Hlast|]. split.
  - intros i Hi. unfold invert_classes. by rewrite foldl_invert_notin.
  - intros Hnd k i Hin.
    apply list_elem_of_split in Hin as (l1 & l2 & ->).
    apply (Hlast l1 k i l2); [done|].
    rewrite fmap_app in Hnd. apply NoDup_app in Hnd as (_ & _ & Hnd).
    cbn in Hnd. by apply NoDup_cons in Hnd as [Hnd _].
Qed.

(** X11. Loading leaves the adapter without a model exactly when the model
    file or the class file is missing or fails to load, and then the label
    index is empty as well; with both artifacts loaded the adapter holds the
    model and the inverted class file. *)
Theorem load_classifier_states {Image : Type}
    (model_file : option (result (@keras_model Image)))
    (class_file : option (result (list (string * Z)))) :
  ((load_classifier model_file class_file).1 = None
   ↔ ¬ ∃ m items, model_file = Some (Ok m) ∧ class_file = Some (Ok items))
  ∧ ((load_classifier model_file class_file).1 = None →
     (load_classifier model_file class_file).2 = ∅)
  ∧ (∀ m items, model_file = Some (Ok m) → class_file = Some (Ok items) →
       load_classifier model_file class_file = (Some m, invert_classes items)).
Proof.
  split; [apply load_classifier_unavailable|]. split.
  - unfold load_classifier.
    destruct model_file as [[m|?]|]; [|done..].
    by destruct class_file as [[items|?]|].
  - by intros m items -> ->.
Qed.

(** ** [predict] on arbitrary score vectors *)



Lemma np_argmax_first_nan_witness :
  Forall (λ x, is_nan x = false) [half32; quarter32]
  ∧ np_argmax ([half32; quarter32] ++ S754_nan :: [one32]) = Ok 2%nat.
Proof.
  assert (H : Forall (λ x, is_nan x = false) [half32; quarter32])
    by repeat constructor.
  split; [exact H|]. exact (np_argmax_first_nan _ [one32] H).
Defined.

Lemma get_records_save_other_witness :
  2 ≠ 1
  ∧ get_records
      (save_prediction empty_db 1 "Gir" (float_of_int 130) (float_of_int 350)
         (float_of_int 4) "Female" "temp/cow.jpg" "2025-09-01 10:00:00").2 2
    = get_records empty_db 2.
Proof.
  assert (H : 2 ≠ 1) by lia. split; [exact H|].
  exact (get_records_save_other empty_db 1 2 "Gir" (float_of_int 130)
           (float_of_int 350) (float_of_int 4) "Female" "temp/cow.jpg"
           "2025-09-01 10:00:00" H).
Defined.

(** ** The upload page *)


(** What a run of the upload page does to everything but the store. *)
Lemma page_upload_rest {Image : Type} (model : option (@keras_model Image))
    idx_to_class ws now w :
  w_user (after (page_upload model idx_to_class ws now w)) = w_user w
  ∧ w_page (after (page_upload model idx_to_class ws now w)) = w_page w
  ∧ w_files (after (page_upload model idx_to_class ws now w))
    = match chosen_image ws with
      | Some (name, img) => <["temp/" +:+ name := img]> (w_files w)
      | None => w_files w
      end.
Proof.
  unfold page_upload.
  destruct (chosen_image ws) as [[name img]|]; [|done].
  destruct (predict_clicked ws); [|done]. cbn [negb].
  destruct (predict _ _ _) as [[br conf]|e]; [|done].
  destruct (save_clicked ws); [|done]. cbn [negb w_user].
  destruct (w_user w); [|done]. by rewrite save_prediction_ok.
Qed.

(** X13. Whenever an image is given, the upload page writes it to
    [temp/<name>] (a camera photo to [temp/captured.jpg]; an uploaded file
    is taken when both are given), with or without a user or a pressed
    button, and replaces whatever that path held; all other files, the
    session user and the current page are left as they were. A later run
    with another image under the same name therefore leaves only the later
    image at that path. *)
Theorem page_upload_files {Image : Type} (model : option (@keras_model Image))
    (idx_to_class : gmap Z string) (ws : upload_widgets) (now : string)
    (w : world) :
  (chosen_image ws = None → after (page_upload model idx_to_class ws now w) = w)
  ∧ (∀ name img, up ws = Some (name, img) → chosen_image ws = Some (name, img))
  ∧ (∀ img, up ws = None → cam ws = Some img →
       chosen_image ws = Some ("captured.jpg", img))
  ∧ w_user (after (page_upload model idx_to_class ws now w)) = w_user w
  ∧ w_page (after (page_upload model idx_to_class ws now w)) = w_page w
  ∧ (∀ name img, chosen_image ws = Some (name, img) →
       w_files (after (page_upload model idx_to_class ws now w))
       = <["temp/" +:+ name := img]> (w_files w)
       ∧ ∀ ws' now' img',
           chosen_image ws' = Some (name, img') →
           w_files (after (page_upload model idx_to_class ws' now'
                             (after (page_upload model idx_to_class ws now w))))
             !! ("temp/" +:+ name) = Some img').
Proof.
  pose proof (page_upload_rest model idx_to_class ws now w) as (Hu & Hp & Hf).
  split; [|split; [|split; [|split; [done|split; [done|]]]]].
  - intros Hc. unfold page_upload. by rewrite Hc.
  - intros name img Hup. unfold chosen_image. by rewrite Hup.
  - intros img Hup Hcam. unfold chosen_image. by rewrite Hup, Hcam.
  - intros name img Hc. rewrite Hc in Hf. split; [done|].
    intros ws' now' img' Hc'.
    pose proof (page_upload_rest model idx_to_class ws' now'
                  (after (page_upload model idx_to_class ws now w))) as (_ & _ & Hf').
    rewrite Hc' in Hf'. rewrite Hf'. apply lookup_insert_eq.
Qed.

(** X14. The form with the save button exists only in a run in which the
    predict button is pressed: a run of the upload page with the predict
    button not pressed, or in which [predict] raises, leaves the store as
    it was, whatever the save button and the session say. *)
Theorem page_upload_needs_predict {Image : Type}
    (model : option (@keras_model Image)) (idx_to_class : gmap Z string)
    (ws : upload_widgets) (now : string) (w : world) :
  (predict_clicked ws = false →
     w_db (after (page_upload model idx_to_class ws now w)) = w_db w
     ∧ uncaught (page_upload model idx_to_class ws now w) = None)
  ∧ (∀ name img e,
       chosen_image ws = Some (name, img) →
       predict_clicked ws = true →
       predict model idx_to_class img = Raise e →
       w_db (after (page_upload model idx_to_class ws now w)) = w_db w
       ∧ uncaught (page_upload model idx_to_class ws now w) = Some e).
Proof.
  split.
  - intros Hp. unfold page_upload.
    destruct (chosen_image ws) as [[name img]|]; [|done]. by rewrite Hp.
  - intros name img e Hc Hp He. unfold page_upload.
    rewrite Hc, Hp. cbn [negb]. by rewrite He.
Qed.

(** ** The profile page *)

(** The run of the profile page for a logged-in user, by the two buttons. *)
Lemma page_profile_after {Image : Type} (ws : profile_widgets) (w : @world Image) u :
  w_user w = Some u →
  w_db (after (page_profile ws w))
  = (if save_profile_clicked ws
     then (update_profile (w_db w) (u_id u)
             (default (default "" (u_name u)) (name_in ws))
             (default (default "" (u_phone u)) (phone_in ws))
             (default (default "" (u_address u)) (address_in ws))).2
     else w_db w)
  ∧ w_user (after (page_profile ws w))
    = (if logout_clicked ws then None else Some u)
  ∧ w_page (after (page_profile ws w))
    = (if logout_clicked ws then "auth" else w_page w)
  ∧ w_files (after (page_profile ws w)) = w_files w
  ∧ uncaught (page_profile ws w) = None.
Proof.
  intros Hu. unfold page_profile. rewrite Hu.
  destruct (save_profile_clicked ws), (logout_clicked ws); cbn; by rewrite ?Hu.
Qed.

(** X15. Saving the profile writes the values of the three text widgets (a
    widget left alone gives the value of the session copy, or the empty
    string where that is NULL) into the row of the logged-in user, and
    leaves the session copy of the user as it was at login: unless the
    logout button is pressed too, [st.session_state.user] still holds the
    old profile fields after the save. *)
Theorem page_profile_save_keeps_session {Image : Type} (ws : profile_widgets)
    (w : @world Image) (u : user) (i : nat) (row : user) :
  w_user w = Some u →
  save_profile_clicked ws = true →
  logout_clicked ws = false →
  users (w_db w) !! i = Some row →
  u_id row = u_id u →
  w_user (after (page_profile ws w)) = Some u
  ∧ users (w_db (after (page_profile ws w))) !! i
    = Some {| u_id := u_id row; u_email := u_email row;
              u_password := u_password row;
              u_name := Some (default (default "" (u_name u)) (name_in ws));
              u_phone := Some (default (default "" (u_phone u)) (phone_in ws));
              u_address := Some (default (default "" (u_address u)) (address_in ws)) |}
  ∧ shown (page_profile ws w) = [Header "👤 Profile"; Success "Profile Updated"].
Proof.
  intros Hu Hs Hl Hrow Hid.
  pose proof (page_profile_after ws w u Hu) as (Hdb & Huser & _).
  rewrite Hs in Hdb. rewrite Hl in Huser. split; [done|]. split.
  - rewrite Hdb, update_profile_users, list_lookup_fmap, Hrow. cbn.
    unfold set_profile. by rewrite (proj2 (Z.eqb_eq _ _) Hid).
  - unfold page_profile. rewrite Hu, Hs, Hl. reflexivity.
Qed.

Lemma page_profile_save_keeps_session_witness :
  let u := {| u_id := 1; u_email := "a@x.com"; u_password := hash_pw "pw1";
              u_name := None; u_phone := None; u_address := None |} in
  let ws := {| name_in := Some "Asha"; phone_in := None; address_in := None;
               save_profile_clicked := true; logout_clicked := false |} in
  let w := {| w_db := (add_user empty_db "a@x.com" "pw1").2;
              w_files := (∅ : gmap string unit);
              w_user := Some u; w_page := "profile" |} in
  w_user (after (page_profile ws w)) = Some u
  ∧ users (w_db (after (page_profile ws w))) !! 0%nat
    = Some {| u_id := 1; u_email := "a@x.com"; u_password := hash_pw "pw1";
              u_name := Some "Asha"; u_phone := Some ""; u_address := Some "" |}.
Proof.
  cbv zeta.
  pose proof (page_profile_save_keeps_session
    {| name_in := Some "Asha"; phone_in := None; address_in := None;
       save_profile_clicked := true; logout_clicked := false |}
    {| w_db := (add_user empty_db "a@x.com" "pw1").2;
       w_files := (∅ : gmap string unit);
       w_user := Some {| u_id := 1; u_email := "a@x.com";
                         u_password := hash_pw "pw1"; u_name := None;
                         u_phone := None; u_address := None |};
       w_page := "profile" |}
    _ 0%nat _ eq_refl eq_refl eq_refl eq_refl eq_refl) as (H1 & H2 & _).
  split; [exact H1 | exact H2].
Defined.

(** X16. The profile page without a user shows the warning and changes
    nothing. With a user, the logout button ends the run with a rerun,
    clears the session user and sets the page to the login page, also when
    the save button is pressed in the same run (the save is done first);
    the files are never touched and the store changes only when the save
    button is pressed. *)
Theorem page_profile_logout {Image : Type} (ws : profile_widgets)
    (w : @world Image) :
  (w_user w = None →
     page_profile ws w
     = {| shown := [Header "👤 Profile"; Warning "Please login"];
          after := w; uncaught := None |})
  ∧ (w_user w ≠ None → logout_clicked ws = true →
     w_user (after (page_profile ws w)) = None
     ∧ w_page (after (page_profile ws w)) = "auth"
     ∧ last (shown (page_profile ws w)) = Some Rerun)
  ∧ w_files (after (page_profile ws w)) = w_files w
  ∧ (save_profile_clicked ws = false →
     w_db (after (page_profile ws w)) = w_db w).
Proof.
  split; [|split; [|split]].
  - intros Hu. unfold page_profile. by rewrite Hu.
  - intros Hu Hl. destruct (w_user w) as [u|] eqn:E; [|done].
    pose proof (page_profile_after ws w u E) as (_ & Huser & Hpage & _).
    rewrite Hl in Huser, Hpage. repeat split; [done..|].
    unfold page_profile. rewrite E, Hl.
    by destruct (save_profile_clicked ws).
  - destruct (w_user w) as [u|] eqn:E.
    + by pose proof (page_profile_after ws w u E) as (_ & _ & _ & ? & _).
    + unfold page_profile. by rewrite E.
  - intros Hs. destruct (w_user w) as [u|] eqn:E.
    + pose proof (page_profile_after ws w u E) as (Hdb & _). by rewrite Hs in Hdb.
    + unfold page_profile. by rewrite E.
Qed.

(** ** The records page *)

Lemma shown_records_lines {Image : Type} (files : gmap string Image) recs : ∀ i,
  shown_records (record_lines files i recs) = zip (seq i (length recs)) recs.
Proof.
  unfold shown_records.
  induction recs as [|r recs IH]; intros i; cbn [record_lines length seq zip_with];
    [done|].
  cbn [omap list_omap]. f_equal.
  rewrite omap_app, IH.
  by destruct (_ && _).
Qed.

Lemma record_lines_files {Image : Type} (files : gmap string Image) recs path : ∀ i,
  ShowFile path ∈ record_lines files i recs →
  path ≠ "" ∧ is_Some (files !! path) ∧ ∃ r, r ∈ recs ∧ r_image_path r = path.
Proof.
  induction recs as [|r recs IH]; intros i; cbn [record_lines].
  - by intros ?%elem_of_nil.
  - intros [Hhd|Hin]%elem_of_cons; [done|].
    apply elem_of_app in Hin as [Hin|Hin].
    + destruct (negb _ && _) eqn:E; [|by apply elem_of_nil in Hin].
      apply list_elem_of_singleton in Hin. injection Hin as ->.
      apply andb_true_iff in E as [Hne Hex].
      apply negb_true_iff, String.eqb_neq in Hne.
      apply bool_decide_eq_true in Hex.
      split; [done|]. split; [done|]. exists r. split; [left|done].
    + destruct (IH _ Hin) as (? & ? & r' & Hr' & ?).
      split; [done|]. split; [done|]. exists r'. split; [by right|done].
Qed.

(** X17. For a logged-in user the records page shows one numbered line per
    record [get_records] returns for that user, numbered from 1 in that
    order (the most recent record is number 1), or the note "No records
    yet" when there is none; without a user it shows only the warning. An
    image is shown only for a record whose path is not empty and names an
    existing file. *)
Theorem page_records_lines {Image : Type} (w : @world Image) :
  (∀ u, w_user w = Some u →
     shown_records (page_records w)
     = zip (seq 1 (length (get_records (w_db w) (u_id u))))
           (get_records (w_db w) (u_id u)))
  ∧ (∀ u, w_user w = Some u → get_records (w_db w) (u_id u) = [] →
       page_records w = [Page (Header "📂 Records"); Info "No records yet"])
  ∧ (w_user w = None →
       page_records w
       = [Page (Header "📂 Records"); Page (Warning "Login to view records")])
  ∧ (∀ path, ShowFile path ∈ page_records w →
       path ≠ "" ∧ is_Some (w_files w !! path)
       ∧ ∃ u r, w_user w = Some u ∧ r ∈ get_records (w_db w) (u_id u)
                ∧ r_image_path r = path).
Proof.
  split; [|split; [|split]].
  - intros u Hu. unfold page_records. rewrite Hu.
    destruct (get_records _ _) as [|r recs] eqn:E; [done|].
    change (shown_records (Page (Header "📂 Records")
                             :: record_lines (w_files w) 1 (r :: recs)))
      with (shown_records (record_lines (w_files w) 1 (r :: recs))).
    apply shown_records_lines.
  - intros u Hu Hrec. unfold page_records. by rewrite Hu, Hrec.
  - intros Hu. unfold page_records. by rewrite Hu.
  - intros path. unfold page_records.
    intros [Hhd|Hin]%elem_of_cons; [done|].
    destruct (w_user w) as [u|] eqn:Hu.
    + destruct (get_records _ _) as [|r recs] eqn:E.
      * apply list_elem_of_singleton in Hin. done.
      * apply record_lines_files in Hin as (? & ? & r' & ? & ?).
        split; [done|]. split; [done|]. exists u, r'. by rewrite E.
    + apply list_elem_of_singleton in Hin. done.
Qed.



(** ** The router and the session *)

Lemma add_user_mono d email pw :
  predictions (add_user d email pw).2 = predictions d
  ∧ ∀ u, u ∈ users d → u ∈ users (add_user d email pw).2.
Proof.
  unfold add_user, insert_user. destruct (existsb _ _); cbn; [done|].
  split; [done|]. intros u Hu. apply elem_of_app. by left.
Qed.

Lemma update_profile_keeps_ids d uid n p a u :
  u ∈ users d →
  ∃ u', u' ∈ users (update_profile d uid n p a).2
        ∧ u_id u' = u_id u ∧ u_email u' = u_email u.
Proof.
  intros Hu. exists (set_profile uid n p a u).
  rewrite update_profile_users, set_profile_id, set_profile_email.
  split; [by apply list_elem_of_fmap_2|done].
Qed.

Lemma session_ok_page {Image : Type} (w w' : @world Image) :
  w_db w' = w_db w → w_user w' = w_user w →
  w_page w' ∈ ["auth"; "upload"; "profile"; "records"] →
  session_ok w → session_ok w'.
Proof.
  intros Hdb Hu Hp (Hwf & Hfk & Huser & _). unfold session_ok.
  by rewrite Hdb, Hu.
Qed.

Lemma page_auth_ok {Image : Type} opt e p clicked (w : @world Image) :
  session_ok w → session_ok (after (page_auth opt e p clicked w)).
Proof.
  intros Hok. pose proof Hok as (Hwf & Hfk & Huser & Hpage).
  unfold page_auth. destruct opt.
  - (* Login *)
    destruct clicked; cbn [negb]; [|done].
    destruct (login_user (w_db w) e p) as [u|] eqn:E; cbn [after]; [|done].
    apply login_user_some in E as (Hin & _).
    repeat split; cbn; [apply Hwf..|done| |by repeat constructor].
    intros u' [= <-]. by exists u.
  - (* Sign Up *)
    destruct clicked; cbn [negb]; [|done].
    pose proof (add_user_mono (w_db w) e p) as (Hpred & Hmono).
    pose proof (wf_add_user (w_db w) e p Hwf) as Hwf'.
    assert (Hgoal : session_ok (with_db w (add_user (w_db w) e p).2)).
    { unfold session_ok, with_db; cbn. split; [done|]. split; [|split; [|done]].
      - rewrite Hpred. intros q Hq. destruct (Hfk q Hq) as (u & Hu & Hid).
        exists u. split; [by apply Hmono|done].
      - intros u Hu. destruct (Huser u Hu) as (u' & Hu' & Hid).
        exists u'. split; [by apply Hmono|done]. }
    by destruct (add_user (w_db w) e p) as [[[]|ex] d].
  - (* Skip *)
    cbn [after]. apply (session_ok_page w); [done..|by repeat constructor|done].
Qed.

Lemma page_upload_ok {Image : Type} (model : option (@keras_model Image))
    idx_to_class ws now w :
  session_ok w → session_ok (after (page_upload model idx_to_class ws now w)).
Proof.
  intros Hok. pose proof Hok as (Hwf & Hfk & Huser & Hpage).
  unfold page_upload.
  destruct (chosen_image ws) as [[name img]|]; [|done].
  assert (Hok1 : session_ok
            {| w_db := w_db w; w_files := <["temp/" +:+ name := img]> (w_files w);
               w_user := w_user w; w_page := w_page w |}).
  { by apply (session_ok_page w). }
  destruct (predict_clicked ws); [|done]. cbn [negb].
  destruct (predict _ _ _) as [[br conf]|ex]; [|done].
  destruct (save_clicked ws); [|done]. cbn [negb w_user].
  destruct (w_user w) as [u|] eqn:Hu; [|done].
  rewrite save_prediction_ok. cbn [after with_db w_db w_user w_files w_page].
  destruct (Huser u eq_refl) as (u' & Hu' & Hid & Hem).
  unfold session_ok; cbn. split; [|split; [|split; [|done]]].
  - pose proof (wf_save_prediction (w_db w) (u_id u) (default br (breed_edit ws))
                  (height_in ws) (weight_in ws) (age_in ws) (gender_in ws)
                  ("temp/" +:+ name) now Hwf) as Hwf'.
    by rewrite save_prediction_ok in Hwf'.
  - intros q [Hq|Hq]%elem_of_app; [by apply Hfk|].
    apply list_elem_of_singleton in Hq as ->. cbn. by exists u'.
  - intros v [= <-]. by exists u'.
Qed.

Lemma page_profile_ok {Image : Type} ws (w : @world Image) :
  session_ok w → session_ok (after (page_profile ws w)).
Proof.
  intros Hok. pose proof Hok as (Hwf & Hfk & Huser & Hpage).
  destruct (w_user w) as [u|] eqn:Hu.
  - pose proof (page_profile_after ws w u Hu) as (Hdb & Huser' & Hpage' & _).
    unfold session_ok. rewrite Hdb, Huser', Hpage'.
    assert (Hupd : ∀ n p a,
              wf_db (update_profile (w_db w) (u_id u) n p a).2
              ∧ (∀ q, q ∈ predictions (update_profile (w_db w) (u_id u) n p a).2 →
                   ∃ v, v ∈ users (update_profile (w_db w) (u_id u) n p a).2
                        ∧ u_id v = p_user_id q)
              ∧ (∀ v, Some u = Some v →
                   ∃ v', v' ∈ users (update_profile (w_db w) (u_id u) n p a).2
                         ∧ u_id v' = u_id v ∧ u_email v' = u_email v)).
    { intros n p a. split; [by apply wf_update_profile|]. split.
      - intros q Hq. destruct (Hfk q Hq) as (v & Hv & Hid).
        destruct (update_profile_keeps_ids (w_db w) (u_id u) n p a v Hv)
          as (v' & Hv' & Hid' & _).
        exists v'. split; [done|congruence].
      - intros v [= <-]. destruct (Huser u eq_refl) as (v & Hv & Hid & Hem).
        destruct (update_profile_keeps_ids (w_db w) (u_id u) n p a v Hv)
          as (v' & Hv' & Hid' & Hem').
        exists v'. split; [done|]. split; congruence. }
    destruct (save_profile_clicked ws), (logout_clicked ws);
      (split; [first [apply Hupd | exact Hwf]|]);
      (split; [first [apply Hupd | exact Hfk]|]);
      (split; [first [apply Hupd | exact Huser | by intros ? [=]]|]);
      first [exact Hpage | by repeat constructor].
  - unfold page_profile. by rewrite Hu.
Qed.

(** The dispatch, page by page. *)
Lemma route_cases {Image : Type} (model : option (@keras_model Image))
    idx_to_class inp now w :
  (w_page w = "auth"
   ∧ route model idx_to_class inp now w
     = of_page (page_auth (auth_opt inp) (auth_email inp) (auth_password inp)
                          (auth_clicked inp) w))
  ∨ (w_page w = "upload"
     ∧ route model idx_to_class inp now w
       = of_page (page_upload model idx_to_class (upload_in inp) now w))
  ∨ (w_page w = "profile"
     ∧ route model idx_to_class inp now w = of_page (page_profile (profile_in inp) w))
  ∨ ((w_page w ∉ ["auth"; "upload"; "profile"])
     ∧ route model idx_to_class inp now w
       = {| a_shown := page_records w; a_after := w; a_uncaught := None |}).
Proof.
  unfold route.
  destruct (String.eqb_spec (w_page w) "auth") as [H1|H1]; [by left|].
  destruct (String.eqb_spec (w_page w) "upload") as [H2|H2]; [by right; left|].
  destruct (String.eqb_spec (w_page w) "profile") as [H3|H3];
    [by right; right; left|].
  right; right; right. split; [|done].
  rewrite !not_elem_of_cons. repeat split; [done..|apply not_elem_of_nil].
Qed.

Lemma navigate_after {Image : Type} (inp : @script_inputs Image) r :
  w_db (a_after (navigate inp r)) = w_db (a_after r)
  ∧ w_user (a_after (navigate inp r)) = w_user (a_after r)
  ∧ w_files (a_after (navigate inp r)) = w_files (a_after r)
  ∧ (w_page (a_after (navigate inp r)) = w_page (a_after r)
     ∨ (stopped r = false
        ∧ w_page (a_after (navigate inp r)) ∈ ["upload"; "profile"; "records"])).
Proof.
  unfold navigate. destruct (stopped r); [by repeat split; try left|].
  destruct (home_clicked inp);
    [repeat split; right; split; [done|by repeat constructor]|].
  destruct (profile_clicked inp);
    [repeat split; right; split; [done|by repeat constructor]|].
  destruct (records_clicked inp);
    [repeat split; right; split; [done|by repeat constructor]|].
  by repeat split; try left.
Qed.

Lemma main_ok {Image : Type} (model : option (@keras_model Image))
    idx_to_class inp now w :
  session_ok w → session_ok (a_after (main model idx_to_class inp now w)).
Proof.
  intros Hok. unfold main.
  assert (Hroute : session_ok (a_after (route model idx_to_class inp now w))).
  { destruct (route_cases model idx_to_class inp now w)
      as [[_ ->]|[[_ ->]|[[_ ->]|[_ ->]]]]; cbn [of_page a_after].
    - by apply page_auth_ok.
    - by apply page_upload_ok.
    - by apply page_profile_ok.
    - done. }
  destruct (navigate_after inp (route model idx_to_class inp now w))
    as (Hdb & Hu & _ & Hp).
  apply (session_ok_page (a_after (route model idx_to_class inp now w)));
    [done..| |done].
  destruct Hp as [->|[_ Hp]]; [apply Hroute|].
  by apply elem_of_cons; right.
Qed.

Lemma session_snoc {Image : Type} (model : option (@keras_model Image))
    idx_to_class runs r w :
  session model idx_to_class (runs ++ [r]) w
  = a_after (main model idx_to_class r.1 r.2 (session model idx_to_class runs w)).
Proof. unfold session. by rewrite foldl_app. Qed.

(** X19. Every run of the script keeps the session consistent with the
    store, and so does every session: the store meets the constraints of
    the schema, every stored record carries the id of a row of [users],
    the logged-in user is a row of [users] by id and email, and the current
    page is one of the four the router knows. In particular the records the
    pages store always name an existing user, and a profile update from
    the profile page always finds its row. *)
Theorem session_consistent {Image : Type} (model : option (@keras_model Image))
    (idx_to_class : gmap Z string) (runs : list (script_inputs * string))
    (w : @world Image) :
  session_ok w → session_ok (session model idx_to_class runs w).
Proof.
  intros Hok. induction runs as [|r runs IH] using rev_ind; [done|].
  rewrite session_snoc. by apply main_ok.
Qed.

Lemma new_session_ok {Image : Type} (files : gmap string Image) :
  session_ok (new_session empty_db files).
Proof.
  split; [exact wf_empty_db|]. split; [by intros q ?%elem_of_nil|].
  split; [done|]. by repeat constructor.
Qed.

Lemma session_consistent_witness :
  session_ok (new_session empty_db (∅ : gmap string unit))
  ∧ session_ok
      (session (Some sample_model) sample_classes
         [ (auth_run SignUp "a@x.com" "pw1" true, "2025-09-01 10:00:00");
           (auth_run Login "a@x.com" "pw1" true, "2025-09-01 10:01:00") ]
         (new_session empty_db ∅)).
Proof.
  split; [apply new_session_ok|].
  apply (session_consistent (Some sample_model) sample_classes), new_session_ok.
Defined.

Lemma record_lines_no_rerun {Image : Type} (files : gmap string Image) recs : ∀ i,
  existsb is_rerun (record_lines files i recs) = false.
Proof.
  induction recs as [|r recs IH]; intros i; cbn [record_lines existsb is_rerun];
    [done|].
  rewrite existsb_app, IH. by destruct (_ && _).
Qed.

Lemma page_records_no_rerun {Image : Type} (w : @world Image) :
  existsb is_rerun (page_records w) = false.
Proof.
  unfold page_records. cbn [existsb is_rerun].
  destruct (w_user w); [|done].
  destruct (get_records _ _) eqn:E; [done|]. apply record_lines_no_rerun.
Qed.

(** X20. On the records page, and on any page name the router does not
    know, a run of the script only reads: it shows the records page and then
    the navigation bar, raises nothing, and leaves the store, the files and
    the session user as they were; at most the current page changes, to the
    page of a pressed navigation button. *)
Theorem main_records_read_only {Image : Type} (model : option (@keras_model Image))
    (idx_to_class : gmap Z string) (inp : script_inputs) (now : string)
    (w : @world Image) :
  w_page w ∉ ["auth"; "upload"; "profile"] →
  (∃ rest, a_shown (main model idx_to_class inp now w)
           = page_records w ++ Divider :: rest)
  ∧ a_uncaught (main model idx_to_class inp now w) = None
  ∧ w_db (a_after (main model idx_to_class inp now w)) = w_db w
  ∧ w_files (a_after (main model idx_to_class inp now w)) = w_files w
  ∧ w_user (a_after (main model idx_to_class inp now w)) = w_user w
  ∧ (w_page (a_after (main model idx_to_class inp now w)) = w_page w
     ∨ w_page (a_after (main model idx_to_class inp now w))
       ∈ ["upload"; "profile"; "records"]).
Proof.
  intros Hpage. unfold main.
  destruct (route_cases model idx_to_class inp now w)
    as [[H _]|[[H _]|[[H _]|[_ ->]]]];
    [exfalso; apply Hpage; rewrite H; by repeat constructor..|].
  unfold navigate, stopped. cbn [a_uncaught a_shown].
  rewrite page_records_no_rerun.
  destruct (home_clicked inp);
    [cbn; repeat split; [by eexists|right; by repeat constructor]|].
  destruct (profile_clicked inp);
    [cbn; repeat split; [by eexists|right; by repeat constructor]|].
  destruct (records_clicked inp);
    [cbn; repeat split; [by eexists|right; by repeat constructor]|].
  cbn. repeat split; [by eexists|by left].
Qed.

Lemma main_records_read_only_witness :
  let w := {| w_db := empty_db; w_files := (∅ : gmap string unit);
              w_user := None; w_page := "records" |} in
  w_db (a_after (main (Some sample_model) sample_classes
                   (auth_run Skip "" "" false) "2025-09-01 10:00:00" w))
  = empty_db
  ∧ a_shown (main (Some sample_model) sample_classes
               (auth_run Skip "" "" false) "2025-09-01 10:00:00" w)
    = [ Page (Header "📂 Records"); Page (Warning "Login to view records");
        Divider ].
Proof.
  cbv zeta.
  assert (Hp : "records" ∉ ["auth"; "upload"; "profile"]).
  { rewrite !not_elem_of_cons. repeat split; [done..|apply not_elem_of_nil]. }
  pose proof (main_records_read_only (Some sample_model) sample_classes
                (auth_run Skip "" "" false) "2025-09-01 10:00:00"
                {| w_db := empty_db; w_files := (∅ : gmap string unit);
                   w_user := None; w_page := "records" |} Hp)
    as (_ & _ & Hdb & _).
  split; [exact Hdb | reflexivity].
Defined.

Lemma main_visitor {Image : Type} (model : option (@keras_model Image))
    idx_to_class inp now (w : @world Image) :
  w_user w = None → auth_clicked inp = false →
  w_db (a_after (main model idx_to_class inp now w)) = w_db w
  ∧ w_user (a_after (main model idx_to_class inp now w)) = None.
Proof.
  intros Hu Hc. unfold main.
  destruct (navigate_after inp (route model idx_to_class inp now w))
    as (-> & -> & _).
  destruct (route_cases model idx_to_class inp now w)
    as [[_ ->]|[[_ ->]|[[_ ->]|[_ ->]]]]; cbn [of_page a_after].
  - unfold page_auth. rewrite Hc. by destruct (auth_opt inp).
  - pose proof (page_upload_rest model idx_to_class (upload_in inp) now w)
      as (-> & _). split; [|done].
    page_upload_cases (upload_in inp).
    destruct (save_clicked (upload_in inp)); [|done]. cbn. by rewrite Hu.
  - unfold page_profile. by rewrite Hu.
  - done.
Qed.

(** X21. In a session that starts without a user and in which neither the
    Login nor the Create Account button is ever pressed, nothing is ever
    written to the store and no user is ever logged in, whatever else is
    pressed, uploaded or typed on any page. *)
Theorem session_without_login {Image : Type} (model : option (@keras_model Image))
    (idx_to_class : gmap Z string) (runs : list (script_inputs * string))
    (w : @world Image) :
  w_user w = None →
  Forall (λ r, auth_clicked r.1 = false) runs →
  w_db (session model idx_to_class runs w) = w_db w
  ∧ w_user (session model idx_to_class runs w) = None.
Proof.
  intros Hu. induction runs as [|r runs IH] using rev_ind; intros Hruns; [done|].
  apply Forall_app in Hruns as [Hruns Hr]. apply Forall_cons in Hr as [Hr _].
  destruct (IH Hruns) as [Hdb Huser]. rewrite session_snoc.
  destruct (main_visitor model idx_to_class r.1 r.2
              (session model idx_to_class runs w) Huser Hr) as [-> ->].
  done.
Qed.

Lemma session_without_login_witness :
  let runs :=
    [ (auth_run Skip "" "" false, "2025-09-01 10:00:00");
      ({| auth_opt := Skip; auth_email := ""; auth_password := "";
          auth_clicked := false;
          upload_in := {| up := Some ("cow.jpg", ()); cam := None;
                          predict_clicked := true; breed_edit := Some "Gir";
                          height_in := float_of_int 130;
                          weight_in := float_of_int 350;
                          age_in := float_of_int 4; gender_in := "Female";
                          save_clicked := true |};
          profile_in := idle_profile; home_clicked := false;
          profile_clicked := false; records_clicked := true |},
       "2025-09-01 10:01:00") ] in
  Forall (λ r : @script_inputs unit * string, auth_clicked r.1 = false) runs
  ∧ w_db (session (Some sample_model) sample_classes runs
            (new_session empty_db ∅)) = empty_db.
Proof.
  cbv zeta.
  match goal with |- Forall _ ?l ∧ _ =>
    assert (H : Forall (λ r : @script_inputs unit * string,
                          auth_clicked r.1 = false) l)
      by (repeat constructor)
  end.
  split; [exact H|].
  exact (proj1 (session_without_login (Some sample_model) sample_classes _
                  (new_session empty_db ∅) eq_refl H)).
Defined.

Lemma login_after_add_user d email pw :
  email ∉ u_email <$> users d →
  add_user d email pw
  = (Ok (),
     {| users := users d ++
          [ {| u_id := next_rowid (users_seq d) (u_id <$> users d);
               u_email := email; u_password := hash_pw pw;
               u_name := None; u_phone := None; u_address := None |} ];
        users_seq := next_rowid (users_seq d) (u_id <$> users d);
        predictions := predictions d;
        predictions_seq := predictions_seq d |})
  ∧ login_user (add_user d email pw).2 email pw
    = Some {| u_id := next_rowid (users_seq d) (u_id <$> users d);
              u_email := email; u_password := hash_pw pw;
              u_name := None; u_phone := None; u_address := None |}.
Proof.
  intros Hnot. unfold add_user, insert_user.
  rewrite (proj2 (existsb_email_false _ _) Hnot). split; [done|].
  unfold login_user; cbn [snd users].
  rewrite find_snoc, find_email_none by done.
  cbn [u_email u_password]. by rewrite !String.eqb_refl.
Qed.

(** X22. From the login page, a run that creates an account for a new email
    (no navigation button pressed) followed by a run that logs in with the
    same email and password ends on the upload page with that account as
    the session user: a fresh row of [users] with the given email, the
    digest of the password and an empty profile. *)
Theorem signup_then_login {Image : Type} (model : option (@keras_model Image))
    (idx_to_class : gmap Z string) (i1 i2 : script_inputs) (t1 t2 e p : string)
    (w : @world Image) :
  w_page w = "auth" →
  (∀ u, u ∈ users (w_db w) → u_email u ≠ e) →
  auth_opt i1 = SignUp → auth_email i1 = e → auth_password i1 = p →
  auth_clicked i1 = true →
  home_clicked i1 = false → profile_clicked i1 = false →
  records_clicked i1 = false →
  auth_opt i2 = Login → auth_email i2 = e → auth_password i2 = p →
  auth_clicked i2 = true →
  ∃ u,
    w_user (session model idx_to_class [(i1, t1); (i2, t2)] w) = Some u
    ∧ u ∈ users (w_db (session model idx_to_class [(i1, t1); (i2, t2)] w))
    ∧ (∀ v, v ∈ users (w_db w) → u_id v < u_id u)
    ∧ u_email u = e
    ∧ u_password u = hash_pw p
    ∧ u_name u = None
    ∧ w_page (session model idx_to_class [(i1, t1); (i2, t2)] w) = "upload".
Proof.
  intros Hpage Hfresh Ho1 He1 Hp1 Hc1 Hh Hpr Hr Ho2 He2 Hp2 Hc2.
  assert (Hnot : e ∉ u_email <$> users (w_db w)).
  { intros (u & Heq & Hu)%list_elem_of_fmap. by apply (Hfresh u). }
  destruct (login_after_add_user (w_db w) e p Hnot) as [Hadd Hlogin].
  set (u := {| u_id := next_rowid (users_seq (w_db w)) (u_id <$> users (w_db w));
               u_email := e; u_password := hash_pw p;
               u_name := None; u_phone := None; u_address := None |}) in *.
  assert (H1 : a_after (main model idx_to_class i1 t1 w)
               = with_db w (add_user (w_db w) e p).2).
  { unfold main, route. rewrite Hpage. cbn [String.eqb Ascii.eqb Bool.eqb].
    unfold page_auth. rewrite Ho1, He1, Hp1, Hc1. cbn [negb].
    rewrite Hadd. unfold navigate, stopped. cbn. by rewrite Hh, Hpr, Hr. }
  assert (H2 : a_after (main model idx_to_class i2 t2
                          (with_db w (add_user (w_db w) e p).2))
               = {| w_db := (add_user (w_db w) e p).2; w_files := w_files w;
                    w_user := Some u; w_page := "upload" |}).
  { unfold main, route. cbn [with_db w_page]. rewrite Hpage.
    cbn [String.eqb Ascii.eqb Bool.eqb].
    unfold page_auth. rewrite Ho2, He2, Hp2, Hc2. cbn [negb w_db with_db].
    rewrite Hlogin. reflexivity. }
  exists u. unfold session. cbn [foldl fst snd]. rewrite H1, H2.
  cbn [w_user w_db w_page]. rewrite Hadd.
  repeat split.
  - apply elem_of_app. right. by apply list_elem_of_singleton.
  - intros v Hv. apply next_rowid_above. by apply list_elem_of_fmap_2.
Qed.

Lemma signup_then_login_witness :
  ∃ u,
    w_user (session (Some sample_model) sample_classes
              [ (auth_run SignUp "a@x.com" "pw1" true, "2025-09-01 10:00:00");
                (auth_run Login "a@x.com" "pw1" true, "2025-09-01 10:01:00") ]
              (new_session empty_db ∅)) = Some u
    ∧ u_email u = "a@x.com"
    ∧ w_page (session (Some sample_model) sample_classes
                [ (auth_run SignUp "a@x.com" "pw1" true, "2025-09-01 10:00:00");
                  (auth_run Login "a@x.com" "pw1" true, "2025-09-01 10:01:00") ]
                (new_session empty_db ∅)) = "upload".
Proof.
  destruct (signup_then_login (Some sample_model) sample_classes
              (auth_run SignUp "a@x.com" "pw1" true)
              (auth_run Login "a@x.com" "pw1" true)
              "2025-09-01 10:00:00" "2025-09-01 10:01:00" "a@x.com" "pw1"
              (new_session empty_db ∅) eq_refl
              (λ u (Hu : u ∈ []), False_rect _ (proj1 (elem_of_nil u) Hu))
              eq_refl eq_refl eq_refl eq_refl eq_refl eq_refl eq_refl
              eq_refl eq_refl eq_refl eq_refl)
    as (u & H1 & _ & _ & H2 & _ & _ & H3).
  exists u. repeat split; assumption.
Defined.
